(** * Quiz Wiz: session store, answer evaluation, navigation, report and
      ingestion normalisation, embedded from the TypeScript sources.

    Strings are JavaScript strings: sequences of UTF-16 code units, written
    here as lists of [N].  [sessionStorage] is a finite map from key strings
    to the values the application serialises into it. *)

From Stdlib Require Import List NArith ZArith QArith Qround Lia String Ascii Bool.
From Stdlib Require Import DecimalString DecimalNat DecimalFacts.
From stdpp Require Import gmap strings list fin_maps.

Close Scope Q_scope.
Local Open Scope nat_scope.

(** ** JavaScript strings *)

Abbreviation jsstring := (list N).

(** A string literal of the source, as code units (ASCII literals only). *)
Definition js (s : string) : jsstring :=
  List.map N_of_ascii (list_ascii_of_string s).

(** [a === b] on two strings. *)
Definition str_eqb (a b : jsstring) : bool := bool_decide (a = b).

(** WhiteSpace and LineTerminator code units of ECMAScript, the ones
    [String.prototype.trim] strips. *)
Definition isWhiteSpace (c : N) : bool :=
  ((9 <=? c) && (c <=? 13) || (c =? 32) || (c =? 160) || (c =? 5760)
   || (8192 <=? c) && (c <=? 8202) || (c =? 8232) || (c =? 8233)
   || (c =? 8239) || (c =? 8287) || (c =? 12288) || (c =? 65279))%N.

Fixpoint trimStart (s : jsstring) : jsstring :=
  match s with
  | c :: r => if isWhiteSpace c then trimStart r else s
  | [] => []
  end.

Definition trimEnd (s : jsstring) : jsstring :=
  reverse (trimStart (reverse s)).

Definition trim (s : jsstring) : jsstring := trimEnd (trimStart s).

(** [String.prototype.toLowerCase] is the engine's: it folds every script
    by the Unicode tables of the engine at hand.  The sources call it and
    nothing more, so it is an operation the embedding is given, not one it
    fixes. *)
Class Engine := {
  toLowerCase : jsstring -> jsstring
}.

(** Upper-case code units of Basic Latin and Latin-1, and the lower-case
    unit of each: the part of the case tables that is written out here. *)
Definition isUpper (c : N) : bool :=
  ((65 <=? c) && (c <=? 90) || (192 <=? c) && (c <=? 214)
   || (216 <=? c) && (c <=? 222))%N.

Definition lowerUnit (c : N) : N := if isUpper c then (c + 32)%N else c.

(** A string of Basic Latin and Latin-1 code units only. *)
Definition isLatin1 (s : jsstring) : Prop := Forall (fun c => (c < 256)%N) s.

(** On Latin-1 strings [toLowerCase] works unit by unit, as [lowerUnit]
    says: a fact of the Unicode tables every engine shares. *)
Definition lowersLatin1 `{Engine} : Prop :=
  forall s, isLatin1 s -> toLowerCase s = List.map lowerUnit s.

(** An engine for worked examples: it folds Latin-1 and leaves the rest. *)
Definition latinEngine : Engine :=
  {| toLowerCase := fun s => List.map lowerUnit s |}.

(** Folding the case of a written-out Latin-1 string. *)
Ltac lower_latin L :=
  repeat match goal with
    | |- context [toLowerCase ?s] =>
        rewrite (L s) by (vm_compute; repeat constructor)
    end.

(** [String.fromCharCode(n)]: one code unit, taken modulo 2^16. *)
Definition fromCharCode (n : N) : jsstring := [(n mod 65536)%N].

(** Truthiness of a string: the empty string is the only falsy one. *)
Definition truthy (s : jsstring) : bool :=
  match s with [] => false | _ :: _ => true end.

(** [Array.prototype.join]. *)
Fixpoint join (sep : jsstring) (l : list jsstring) : jsstring :=
  match l with
  | [] => []
  | [x] => x
  | x :: r => x ++ sep ++ join sep r
  end.

(** Decimal rendering of a non-negative integer, as [Number.prototype.toString]. *)
Definition natToString (n : nat) : jsstring :=
  js (NilEmpty.string_of_uint (Nat.to_uint n)).

(** The value of a decimal digit. *)
Definition digitValue (c : N) : option nat :=
  if ((48 <=? c) && (c <=? 57))%N then Some (N.to_nat (c - 48)) else None.

(** The longest prefix of decimal digits, read from the left; [acc] is
    the value read so far, [None] before the first digit. *)
Fixpoint parseDigits (s : jsstring) (acc : option nat) : option nat :=
  match s with
  | c :: r =>
      match digitValue c with
      | Some d =>
          parseDigits r
            (Some (10 * match acc with Some a => a | None => 0 end + d))
      | None => acc
      end
  | [] => acc
  end.

(** [parseInt(s, 10)]: leading white space is skipped, a sign is taken,
    then the digits as far as they go; [None] stands for NaN. *)
Definition parseInt (s : jsstring) : option Z :=
  match trimStart s with
  | 45%N :: r => Z.opp <$> (Z.of_nat <$> parseDigits r None)
  | 43%N :: r => Z.of_nat <$> parseDigits r None
  | r => Z.of_nat <$> parseDigits r None
  end.

(** [s.replace(/\s+/g, '_')]: every maximal run of white space becomes one
    underscore.  [inRun] tells that the unit before was white space. *)
Fixpoint replaceRuns (inRun : bool) (s : jsstring) : jsstring :=
  match s with
  | [] => []
  | c :: r =>
      if isWhiteSpace c then
        if inRun then replaceRuns true r else 95%N :: replaceRuns true r
      else c :: replaceRuns false r
  end.

Definition replaceWhitespace (s : jsstring) : jsstring := replaceRuns false s.

(** ** Data model (src/types.ts) *)

Inductive QuestionType := MultipleChoice | TextQ | FillBlank | Matching.

Record Option := mkOption {
  opt_id : jsstring;
  opt_text : jsstring
}.

(** [string | string[]]. *)
Inductive StrOrArr :=
| Str (s : jsstring)
| Arr (l : list jsstring).

Record Question := mkQuestion {
  q_id : jsstring;
  q_type : QuestionType;
  q_text : jsstring;
  options : option (list Option);
  correctAnswer : StrOrArr;
  userAnswer : option StrOrArr;
  isCorrect : option bool
}.

Record WorksheetSection := mkSection {
  s_id : jsstring;
  s_title : jsstring;
  instructions : jsstring;
  questions : list Question
}.

Record Worksheet := mkWorksheet {
  w_id : jsstring;
  w_title : jsstring;
  description : option jsstring;
  sections : list WorksheetSection
}.

Record StudentInfo := mkStudentInfo {
  name : jsstring;
  timestamp : jsstring
}.

(** ** Session store (src/utils/storage.ts) *)

Definition WORKSHEET_KEY : string := "quiz_wizard_worksheet".
Definition CURRENT_QUESTION_KEY : string := "quiz_wizard_current_question".
Definition STUDENT_INFO_KEY : string := "quiz_wizard_student_info".
Definition COMPLETED_KEY : string := "quiz_wizard_completed".

(** What the application writes under a key: the JSON text of a worksheet
    or of a student record, the decimal text of an index, or the text of a
    boolean.  [JSON.parse (JSON.stringify v)] gives [v] back on these
    values, so a slot holds the value itself.  [IndexText i] is the text
    [natToString i], which is what [index.toString()] writes for an index
    that is a safe integer (below 2^53); reading it goes through
    [parseInt]. *)
Inductive item :=
| WorksheetJson (w : Worksheet)
| StudentJson (s : StudentInfo)
| IndexText (i : nat)
| BoolText (b : bool).

Abbreviation Storage := (gmap string item).

Definition setItem (k : string) (v : item) (st : Storage) : Storage :=
  <[k := v]> st.
Definition getItem (k : string) (st : Storage) : option item := st !! k.
Definition removeItem (k : string) (st : Storage) : Storage := delete k st.

Definition saveWorksheet (worksheet : Worksheet) (st : Storage) : Storage :=
  setItem WORKSHEET_KEY (WorksheetJson worksheet) st.

Definition getWorksheet (st : Storage) : option Worksheet :=
  match getItem WORKSHEET_KEY st with
  | Some (WorksheetJson w) => Some w
  | _ => None
  end.

Definition saveCurrentQuestionIndex (index : nat) (st : Storage) : Storage :=
  setItem CURRENT_QUESTION_KEY (IndexText index) st.

Definition getCurrentQuestionIndex (st : Storage) : nat :=
  match getItem CURRENT_QUESTION_KEY st with
  | Some (IndexText i) =>
      let index := natToString i in
      if truthy index then
        match parseInt index with
        | Some n => Z.to_nat n
        | None => 0
        end
      else 0
  | _ => 0
  end.

Definition saveStudentInfo (info : StudentInfo) (st : Storage) : Storage :=
  setItem STUDENT_INFO_KEY (StudentJson info) st.

Definition getStudentInfo (st : Storage) : option StudentInfo :=
  match getItem STUDENT_INFO_KEY st with
  | Some (StudentJson s) => Some s
  | _ => None
  end.

Definition markAsCompleted (completed : bool) (st : Storage) : Storage :=
  setItem COMPLETED_KEY (BoolText completed) st.

Definition isCompleted (st : Storage) : bool :=
  match getItem COMPLETED_KEY st with
  | Some (BoolText b) => b
  | _ => false
  end.

(** The callback of the inner [map] of [updateQuestionAnswer]; [updated] is
    the flag the closure assigns. *)
Definition updateQuestion (questionId : jsstring) (answer : StrOrArr)
    (correct : bool) (question : Question) (updated : bool) : Question * bool :=
  if str_eqb (q_id question) questionId then
    (mkQuestion (q_id question) (q_type question) (q_text question)
       (options question) (correctAnswer question) (Some answer) (Some correct),
     true)
  else (question, updated).

Fixpoint updateQuestions (questionId : jsstring) (answer : StrOrArr)
    (correct : bool) (qs : list Question) (updated : bool)
    : list Question * bool :=
  match qs with
  | [] => ([], updated)
  | q :: r =>
      let '(q', u1) := updateQuestion questionId answer correct q updated in
      let '(r', u2) := updateQuestions questionId answer correct r u1 in
      (q' :: r', u2)
  end.

Fixpoint updateSections (questionId : jsstring) (answer : StrOrArr)
    (correct : bool) (ss : list WorksheetSection) (updated : bool)
    : list WorksheetSection * bool :=
  match ss with
  | [] => ([], updated)
  | section :: r =>
      let '(updatedQuestions, u1) :=
        updateQuestions questionId answer correct (questions section) updated in
      let section' :=
        mkSection (s_id section) (s_title section) (instructions section)
          updatedQuestions in
      let '(r', u2) := updateSections questionId answer correct r u1 in
      (section' :: r', u2)
  end.

Definition updateQuestionAnswer (questionId : jsstring) (answer : StrOrArr)
    (correct : bool) (st : Storage) : Storage :=
  match getWorksheet st with
  | None => st
  | Some worksheet =>
      let '(updatedSections, updated) :=
        updateSections questionId answer correct (sections worksheet) false in
      if updated then
        saveWorksheet
          (mkWorksheet (w_id worksheet) (w_title worksheet)
             (description worksheet) updatedSections) st
      else st
  end.

Definition getCompletedQuestionsCount (st : Storage) : nat :=
  match getWorksheet st with
  | None => 0
  | Some worksheet =>
      fold_left
        (fun total section =>
           total + length (List.filter (fun q => bool_decide (is_Some (userAnswer q)))
                             (questions section)))
        (sections worksheet) 0
  end.

Definition getTotalQuestionsCount (st : Storage) : nat :=
  match getWorksheet st with
  | None => 0
  | Some worksheet =>
      fold_left (fun total section => total + length (questions section))
        (sections worksheet) 0
  end.

Definition getAllQuestions (st : Storage) : list Question :=
  match getWorksheet st with
  | None => []
  | Some worksheet => flat_map questions (sections worksheet)
  end.

(** [q.isCorrect] used as a condition: absent and [false] are both falsy. *)
Definition isCorrectTruthy (q : Question) : bool :=
  match isCorrect q with Some true => true | _ => false end.

Definition getCorrectAnswersCount (st : Storage) : nat :=
  length (List.filter isCorrectTruthy (getAllQuestions st)).

Definition clearStorage (st : Storage) : Storage :=
  removeItem COMPLETED_KEY
    (removeItem STUDENT_INFO_KEY
       (removeItem CURRENT_QUESTION_KEY
          (removeItem WORKSHEET_KEY st))).

(** ** Answer submission (the Question component) *)

Module QuestionComponent.

(** The component's [useState] cells. *)
Record state := mkState {
  selectedOption : jsstring;
  textAnswer : jsstring;
  hasSubmitted : bool;
  isCorrectShown : bool
}.

Definition initial : state := mkState [] [] false false.

(** [selectedOption === question.correctAnswer]: a string is never
    strictly equal to an array. *)
Definition strictEq (s : jsstring) (a : StrOrArr) : bool :=
  match a with
  | Str c => str_eqb s c
  | Arr _ => false
  end.

(** The [switch] of [handleSubmit]: the answer that is stored and its
    verdict. *)
Definition evaluate `{Engine} (question : Question) (cs : state)
    : StrOrArr * bool :=
  match q_type question with
  | MultipleChoice | Matching =>
      (Str (selectedOption cs),
       strictEq (selectedOption cs) (correctAnswer question))
  | TextQ | FillBlank =>
      let answer := trim (textAnswer cs) in
      let userAnswerLower := toLowerCase answer in
      (Str answer,
       match correctAnswer question with
       | Arr l => existsb (fun a => str_eqb userAnswerLower (toLowerCase a)) l
       | Str c => str_eqb userAnswerLower (toLowerCase c)
       end)
  end.

Definition handleSubmit `{Engine} (question : Question) (cs : state)
    (st : Storage) : state * Storage :=
  let '(answer, correct) := evaluate question cs in
  (mkState (selectedOption cs) (textAnswer cs) true correct,
   updateQuestionAnswer (q_id question) answer correct st).

(** The [disabled] attribute of the Submit button. *)
Definition submitDisabled (question : Question) (cs : state) : bool :=
  match q_type question with
  | MultipleChoice | Matching => negb (truthy (selectedOption cs))
  | TextQ | FillBlank => negb (truthy (trim (textAnswer cs)))
  end.

(** A click where the Submit button stands: the button is rendered only
    while [hasSubmitted] is false, and a disabled button fires no
    [onClick].  [Some] is the evaluation that [handleSubmit] runs. *)
Definition clickSubmit `{Engine} (question : Question) (cs : state)
    : option (StrOrArr * bool) :=
  if hasSubmitted cs then None
  else if submitDisabled question cs then None
  else Some (evaluate question cs).

Definition onClickSubmit `{Engine} (question : Question) (cs : state)
    (st : Storage) : state * Storage :=
  match clickSubmit question cs with
  | Some _ => handleSubmit question cs st
  | None => (cs, st)
  end.

(** [handleNext], after the page's [onNext] has run: the inputs are
    emptied for the next question; the verdict cell is left as it is. *)
Definition handleNext (cs : state) : state :=
  mkState [] [] false (isCorrectShown cs).

End QuestionComponent.

(** ** Navigation (src/pages/Worksheet.tsx) *)

Module WorksheetPage.

Record state := mkState {
  currentIndex : nat;
  allQuestions : list Question;
  completedCount : nat;
  totalCount : nat;
  worksheet : option Worksheet
}.

(** The [useState] initialisers, which the mount effect repeats. *)
Definition mount (st : Storage) : state :=
  mkState (getCurrentQuestionIndex st) (getAllQuestions st)
    (getCompletedQuestionsCount st) (getTotalQuestionsCount st)
    (getWorksheet st).

Inductive route := StayOnWorksheet | ToResults.

Definition handleNextQuestion (ps : state) (st : Storage)
    : state * Storage * route :=
  let updatedCompletedCount := getCompletedQuestionsCount st in
  let ps1 := mkState (currentIndex ps) (allQuestions ps)
               updatedCompletedCount (totalCount ps) (worksheet ps) in
  (* [currentIndex < allQuestions.length - 1] over the integers *)
  if (Z.of_nat (currentIndex ps) <? Z.of_nat (length (allQuestions ps)) - 1)%Z
  then
    let nextIndex := currentIndex ps + 1 in
    (mkState nextIndex (allQuestions ps) updatedCompletedCount
       (totalCount ps) (worksheet ps),
     saveCurrentQuestionIndex nextIndex st, StayOnWorksheet)
  else (ps1, markAsCompleted true st, ToResults).

Definition handleFinish (ps : state) (st : Storage)
    : state * Storage * route :=
  (ps, markAsCompleted true st, ToResults).

(** [completedCount >= totalCount / 2]; the quotient is a number, not an
    integer. *)
Definition showFinish (completedCount totalCount : nat) : bool :=
  Qle_bool (inject_Z (Z.of_nat totalCount) / (2 # 1))%Q
           (inject_Z (Z.of_nat completedCount)).

Inductive view :=
| Loading
| Page (currentQuestion : option Question)
       (finishButton : option (nat * nat))
       (continueHint : bool).

Definition render (ps : state) : view :=
  match worksheet ps with
  | None => Loading
  | Some _ =>
      if Nat.eqb (length (allQuestions ps)) 0 then Loading
      else
        Page (allQuestions ps !! currentIndex ps)
          (if showFinish (completedCount ps) (totalCount ps)
           then Some (completedCount ps, totalCount ps) else None)
          (showFinish (completedCount ps) (totalCount ps)
           && (completedCount ps <? totalCount ps))
  end.

Definition finishAvailable (v : view) : bool :=
  match v with
  | Page _ (Some _) _ => true
  | _ => false
  end.

(** [k] clicks on Next Question, as long as the page is shown: after the
    move to the results the page is gone and further clicks have nothing
    to land on. *)
Fixpoint nextClicks (k : nat) (ps : state) (st : Storage)
    : state * Storage * route :=
  match k with
  | 0 => (ps, st, StayOnWorksheet)
  | S k' =>
      let '(ps1, st1, r) := nextClicks k' ps st in
      match r with
      | StayOnWorksheet => handleNextQuestion ps1 st1
      | ToResults => (ps1, st1, ToResults)
      end
  end.

End WorksheetPage.

(** ** Scores: JavaScript numbers as far as the score computation goes *)

(** A quotient of two counts is [NaN] for 0/0, [Infinity] for a positive
    count over 0, and a finite number otherwise; finite numbers are kept as
    exact rationals. *)
Inductive jsnum :=
| NaN
| Infinity
| Fin (q : Q).

Definition divide (a b : nat) : jsnum :=
  match b with
  | 0 => match a with 0 => NaN | S _ => Infinity end
  | S _ => Fin (inject_Z (Z.of_nat a) / inject_Z (Z.of_nat b))%Q
  end.

Definition times (x : jsnum) (k : nat) : jsnum :=
  match x with
  | NaN => NaN
  | Infinity => match k with 0 => NaN | S _ => Infinity end
  | Fin q => Fin (q * inject_Z (Z.of_nat k))%Q
  end.

(** [Math.round]: the nearest integer, halves upwards. *)
Definition Math_round (x : jsnum) : jsnum :=
  match x with
  | NaN => NaN
  | Infinity => Infinity
  | Fin q => Fin (inject_Z (Qfloor (q + (1 # 2))%Q))
  end.

Definition isNaN (x : jsnum) : bool :=
  match x with NaN => true | _ => false end.

(** ** Results page: the score effect *)

Module Results.

Definition scorePercent (st : Storage) : jsnum :=
  let correct := getCorrectAnswersCount st in
  let total := getTotalQuestionsCount st in
  Math_round (times (divide correct total) 100).

(** What the mount effect does: it sends the user back when the worksheet
    is not completed or data is missing, and otherwise sets the three
    score cells. *)
Inductive effect :=
| ToWorksheet
| ToHome
| Scored (correctCount totalCount : nat) (percent : jsnum).

Definition scoreEffect (st : Storage) : effect :=
  if negb (isCompleted st) then ToWorksheet
  else
    match getWorksheet st, getStudentInfo st with
    | Some _, Some _ =>
        Scored (getCorrectAnswersCount st) (getTotalQuestionsCount st)
          (scorePercent st)
    | _, _ => ToHome
    end.

(** The name given to the downloaded file. *)
Definition downloadName (studentInfo : StudentInfo) (worksheet : Worksheet)
    : jsstring :=
  replaceWhitespace
    (name studentInfo ++ js "_" ++ w_title worksheet ++ js ".pdf").

Definition handleStartNew (st : Storage) : Storage := clearStorage st.

End Results.

(** ** Report renderer (the PDF service) *)

Module PdfService.

Definition totalQuestions (worksheet : Worksheet) : nat :=
  fold_left (fun sum section => sum + length (questions section))
    (sections worksheet) 0.

Definition correctAnswers (worksheet : Worksheet) : nat :=
  fold_left
    (fun sum section =>
       sum + length (List.filter isCorrectTruthy (questions section)))
    (sections worksheet) 0.

Definition scorePercent (worksheet : Worksheet) : jsnum :=
  Math_round (times (divide (correctAnswers worksheet)
                       (totalQuestions worksheet)) 100).

(** [question.userAnswer || "Not answered"], interpolated into the
    template literal: an array is truthy and prints as its elements joined
    by a comma. *)
Definition shownAnswer (question : Question) : jsstring :=
  match userAnswer question with
  | None => js "Not answered"
  | Some (Str s) => if truthy s then s else js "Not answered"
  | Some (Arr l) => join (js ",") l
  end.

(** [Array.isArray(c) ? c.join(", ") : c]. *)
Definition shownCorrect (c : StrOrArr) : jsstring :=
  match c with
  | Arr l => join (js ", ") l
  | Str s => s
  end.

Inductive colour := Green | Red.

(** The element built for one question: the numbered prompt, the answer
    line, its colour, and the paragraph appended under it, if any. *)
Record questionElement := mkQuestionElement {
  questionText : jsstring;
  userAnswerHTML : jsstring;
  answerColour : colour;
  correctAnswerHTML : option jsstring
}.

Definition renderQuestion (index : nat) (question : Question)
    : questionElement :=
  let questionText := natToString (index + 1) ++ js ". " ++ q_text question in
  let userAnswerHTML :=
    js "<p><strong>Your answer:</strong> " ++ shownAnswer question
      ++ js "</p>" in
  if isCorrectTruthy question then
    mkQuestionElement questionText userAnswerHTML Green None
  else
    mkQuestionElement questionText userAnswerHTML Red
      (Some (js "<strong>Correct answer:</strong> "
               ++ shownCorrect (correctAnswer question))).

Record sectionElement := mkSectionElement {
  sectionTitle : jsstring;
  sectionInstructions : jsstring;
  questionElements : list questionElement
}.

Definition renderSection (section : WorksheetSection) : sectionElement :=
  mkSectionElement (s_title section) (instructions section)
    (imap renderQuestion (questions section)).

Record container := mkContainer {
  titleElement : jsstring;
  studentName : jsstring;
  studentCompleted : jsstring;
  score : nat * nat * jsnum;
  sectionElements : list sectionElement
}.

(** The container that [generatePDF] lays out before rasterising it. *)
Definition generatePDF (worksheet : Worksheet) (studentInfo : StudentInfo)
    : container :=
  mkContainer (w_title worksheet) (name studentInfo) (timestamp studentInfo)
    (correctAnswers worksheet, totalQuestions worksheet,
     scorePercent worksheet)
    (List.map renderSection (sections worksheet)).

End PdfService.

(** ** Ingestion normalisation (the process-worksheet function) *)

Module ProcessWorksheet.

(** The parsed reply of the model: the worksheet shape without stable
    identifiers; an option may carry an id.  Nothing checks the reply, so
    a question of it may also carry [userAnswer] or [isCorrect], which the
    object spread copies like any other field. *)
Record ParsedOption := mkParsedOption {
  po_id : option jsstring;
  po_text : jsstring
}.

Record ParsedQuestion := mkParsedQuestion {
  pq_type : QuestionType;
  pq_text : jsstring;
  pq_options : option (list ParsedOption);
  pq_correctAnswer : StrOrArr;
  pq_userAnswer : option StrOrArr;
  pq_isCorrect : option bool
}.

Record ParsedSection := mkParsedSection {
  ps_title : jsstring;
  ps_instructions : jsstring;
  ps_questions : list ParsedQuestion
}.

Record ParsedWorksheet := mkParsedWorksheet {
  pw_title : jsstring;
  pw_description : option jsstring;
  pw_sections : list ParsedSection
}.

(** Computations that draw identifiers: the state is the number of
    identifiers drawn so far. *)
Definition Gen (A : Type) : Type := nat -> A * nat.

Definition ret {A} (a : A) : Gen A := fun n => (a, n).

Definition bind {A B} (m : Gen A) (k : A -> Gen B) : Gen B :=
  fun n => let '(a, n') := m n in k a n'.

Notation "'let*' x ':=' m 'in' k" := (bind m (fun x => k))
  (at level 10, x name, m at level 100, k at level 200).

Fixpoint mapM {A B} (f : A -> Gen B) (l : list A) : Gen (list B) :=
  match l with
  | [] => ret []
  | a :: r =>
      let* b := f a in
      let* bs := mapM f r in
      ret (b :: bs)
  end.

(** [opt.id || String.fromCharCode(97 + index)]. *)
Definition processOption (index : nat) (opt : ParsedOption) : Option :=
  mkOption
    (match po_id opt with
     | Some i => if truthy i then i else fromCharCode (97 + N.of_nat index)
     | None => fromCharCode (97 + N.of_nat index)
     end)
    (po_text opt).

Section Normalise.

(** [uuidv4 k] is the identifier returned by the [k]-th call. *)
Variable uuidv4 : nat -> jsstring.

Definition fresh : Gen jsstring := fun n => (uuidv4 n, S n).

Definition processQuestion (question : ParsedQuestion) : Gen Question :=
  let* i := fresh in
  ret (mkQuestion i (pq_type question) (pq_text question)
         (option_map (imap processOption) (pq_options question))
         (pq_correctAnswer question) (pq_userAnswer question)
         (pq_isCorrect question)).

Definition processSection (section : ParsedSection)
    : Gen WorksheetSection :=
  let* i := fresh in
  let* qs := mapM processQuestion (ps_questions section) in
  ret (mkSection i (ps_title section) (ps_instructions section) qs).

Definition processedWorksheet (parsedWorksheet : ParsedWorksheet)
    : Gen Worksheet :=
  let* i := fresh in
  let* ss := mapM processSection (pw_sections parsedWorksheet) in
  ret (mkWorksheet i (pw_title parsedWorksheet)
         (pw_description parsedWorksheet) ss).

End Normalise.

End ProcessWorksheet.

(** ** Upload (src/components/WorksheetUpload.tsx) *)

Module WorksheetUpload.

Record File := mkFile {
  file_name : jsstring;
  file_type : jsstring
}.

(** What [processWorksheetImage] resolves to, or the rejection of the
    awaited promise. *)
Record result := mkResult {
  r_worksheet : option Worksheet;
  r_error : option jsstring
}.

Inductive outcome :=
| Resolved (r : result)
| Rejected.

(** [handleSubmit] up to its [await]: the storage the ingestion call
    runs against and the file handed to it, if the call is made. *)
Definition handleSubmit_begin (file : option File) (st : Storage)
    : Storage * option File :=
  match file with
  | None => (st, None)
  | Some f => (clearStorage st, Some f)
  end.

(** [result.error || !result.worksheet]. *)
Definition isFailure (r : result) : bool :=
  match r_error r with Some e => truthy e | None => false end
  || match r_worksheet r with Some _ => false | None => true end.

(** [handleSubmit] from the [await] on; a rejection lands in [catch]. *)
Definition handleSubmit_resume (o : outcome) (st : Storage) : Storage :=
  match o with
  | Resolved r =>
      if isFailure r then st
      else match r_worksheet r with
           | Some w => saveWorksheet w st
           | None => st
           end
  | Rejected => st
  end.

Definition handleSubmit (file : option File) (o : outcome) (st : Storage)
    : Storage :=
  match handleSubmit_begin file st with
  | (st1, Some _) => handleSubmit_resume o st1
  | (st1, None) => st1
  end.

Definition matchingOptions : list Option :=
  [ mkOption (js "a")
      (161%N :: js "Oh no, te deslizaste por la serpiente!");
    mkOption (js "b") (js "Es mi turno.");
    mkOption (js "c") (js "Voy a tirar el dado.");
    mkOption (js "d") (js "Te moviste dos espacios.");
    mkOption (js "e") (js "Sub" ++ 237%N :: js " la escalera.") ].

Definition matchingQuestion (i t c : string) : Question :=
  mkQuestion (js i) Matching (js t) (Some matchingOptions) (Str (js c))
    None None.

Definition fillBlankQuestion (i : string) (t : jsstring) (c : string)
    : Question :=
  mkQuestion (js i) FillBlank t None (Str (js c)) None None.

Definition createSampleWorksheet : Worksheet :=
  mkWorksheet (js "demo-worksheet") (js "Spanish Game Night Worksheet!")
    (Some (js "Let's practice our Spanish game phrases!"))
    [ mkSection (js "section-1") (js "Match the English to Spanish")
        (js "Match the sentences, fill in the blanks, and have fun!")
        [ matchingQuestion "q1" "It is my turn." "b";
          matchingQuestion "q2" "I will throw the dice." "c";
          matchingQuestion "q3" "You moved two spaces." "d";
          matchingQuestion "q4" "I climbed the ladder." "e";
          matchingQuestion "q5" "Oh no, you slid down!" "a" ];
      mkSection (js "section-2") (js "Fill in the blanks")
        (js "Fill in the missing Spanish words:")
        [ fillBlankQuestion "q6" (js "_______ mi turno.") "Es";
          fillBlankQuestion "q7" (js "Voy a _______ el dado.") "tirar";
          fillBlankQuestion "q8" (js "Te _______ dos espacios.") "moviste";
          fillBlankQuestion "q9"
            (js "Sub" ++ 237%N :: js " la _______.") "escalera";
          fillBlankQuestion "q10"
            (js "_______ no, te deslizaste por la serpiente.") "Oh" ] ].

Definition handleDemoClick (st : Storage) : Storage :=
  saveWorksheet createSampleWorksheet (clearStorage st).

End WorksheetUpload.

(** ** Student form (src/components/StudentForm.tsx) *)

Module StudentForm.

(** [timestamp] is the locale-formatted clock reading taken by the
    handler. *)
Definition handleSubmit (name timestamp : jsstring) (st : Storage)
    : Storage :=
  if truthy (trim name) then
    saveStudentInfo (mkStudentInfo (trim name) timestamp) st
  else st.

End StudentForm.

(** ** The application as a transition system over the session store *)

(** One handler run.  Every write to the store in the sources goes
    through one of these.  The upload handler stores whatever worksheet
    the endpoint returned; [accepts] says which replies are considered. *)
Inductive step `{Engine} (accepts : WorksheetUpload.outcome -> Prop)
    : Storage -> Storage -> Prop :=
| step_student name timestamp st :
    step accepts st (StudentForm.handleSubmit name timestamp st)
| step_upload file o st :
    accepts o -> step accepts st (WorksheetUpload.handleSubmit file o st)
| step_demo st :
    step accepts st (WorksheetUpload.handleDemoClick st)
| step_answer question cs st :
    step accepts st (QuestionComponent.onClickSubmit question cs st).2
| step_update questionId answer correct st :
    step accepts st (updateQuestionAnswer questionId answer correct st)
| step_next ps st :
    step accepts st (WorksheetPage.handleNextQuestion ps st).1.2
| step_finish ps st :
    step accepts st (WorksheetPage.handleFinish ps st).1.2
| step_start_new st :
    step accepts st (clearStorage st).

(** Stores reachable from the empty session. *)
Definition reachable `{Engine} (accepts : WorksheetUpload.outcome -> Prop)
    (st : Storage) : Prop :=
  rtc (step accepts) ∅ st.

(** Every reply is considered. *)
Definition anyReply (o : WorksheetUpload.outcome) : Prop := True.

(** ** Specification vocabulary *)

(** Two code units are the same letter up to case. *)
Definition sameLetter (c d : N) : Prop :=
  c = d
  \/ (isUpper c = true /\ d = (c + 32)%N)
  \/ (isUpper d = true /\ c = (d + 32)%N).

(** Two strings are the same letters up to case, unit by unit. *)
Definition sameLetters (a b : jsstring) : Prop := Forall2 sameLetter a b.

(** Case-insensitive equality of two strings: they are equal once the
    engine has folded their case. *)
Definition equalIgnoringCase `{Engine} (a b : jsstring) : Prop :=
  toLowerCase a = toLowerCase b.

(** [t] is [s] without its leading and trailing white space. *)
Definition trimmedOf (s t : jsstring) : Prop :=
  exists pre post,
    s = pre ++ t ++ post
    /\ Forall (fun c => isWhiteSpace c = true) pre
    /\ Forall (fun c => isWhiteSpace c = true) post
    /\ (forall c, head t = Some c -> isWhiteSpace c = false)
    /\ (forall c, last t = Some c -> isWhiteSpace c = false).

Definition isTextQuestion (q : Question) : Prop :=
  q_type q = TextQ \/ q_type q = FillBlank.

Definition isChoiceQuestion (q : Question) : Prop :=
  q_type q = MultipleChoice \/ q_type q = Matching.

(** The evaluation of a typed-in answer. *)
Definition evaluateText `{Engine} (q : Question) (raw : jsstring)
    : StrOrArr * bool :=
  QuestionComponent.evaluate q (QuestionComponent.mkState [] raw false false).

(** [userAnswer] and [isCorrect] are both absent or both present. *)
Definition answerAtomic (q : Question) : Prop :=
  is_Some (userAnswer q) <-> is_Some (isCorrect q).

Definition worksheetAtomic (w : Worksheet) : Prop :=
  Forall (fun s => Forall answerAtomic (questions s)) (sections w).

Definition storeAtomic (st : Storage) : Prop :=
  forall w, getWorksheet st = Some w -> worksheetAtomic w.

(** Neither field is present: the question has not been answered. *)
Definition unanswered (q : Question) : Prop :=
  userAnswer q = None /\ isCorrect q = None.

(** An answer is stored and it was judged wrong. *)
Definition answeredIncorrectly (q : Question) : Prop :=
  is_Some (userAnswer q) /\ isCorrect q = Some false.

(** The copy of [q] that carries an answer and its verdict. *)
Definition withAnswer (answer : StrOrArr) (correct : bool) (q : Question)
    : Question :=
  mkQuestion (q_id q) (q_type q) (q_text q) (options q) (correctAnswer q)
    (Some answer) (Some correct).

(** The questions of a worksheet, in section order. *)
Definition questionsOf (w : Worksheet) : list Question :=
  flat_map questions (sections w).

(** Section headers, without the questions. *)
Definition sectionHeader (s : WorksheetSection) : jsstring * jsstring * jsstring :=
  (s_id s, s_title s, instructions s).

(** All identifiers drawn for a worksheet, in the order of the document. *)
Definition drawnIds (w : Worksheet) : list jsstring :=
  w_id w :: flat_map (fun s => s_id s :: List.map q_id (questions s)) (sections w).

(** The lower-case alphabet. *)
Definition alphabet : jsstring := js "abcdefghijklmnopqrstuvwxyz".

(** The option at position [i] keeps its text, keeps its id when the
    reply gave a non-empty one, and otherwise gets the code unit
    [97 + i]: the [i]-th letter as long as the alphabet lasts. *)
Definition backfilled (i : nat) (o : Option)
    (p : ProcessWorksheet.ParsedOption) : Prop :=
  opt_text o = ProcessWorksheet.po_text p
  /\ match ProcessWorksheet.po_id p with
     | Some (c :: r) => opt_id o = c :: r
     | _ =>
         opt_id o = fromCharCode (97 + N.of_nat i)
         /\ (i < 26 -> Some (opt_id o) = (fun c => [c]) <$> alphabet !! i)
     end.

Definition sameOptions (os : option (list Option))
    (ps : option (list ProcessWorksheet.ParsedOption)) : Prop :=
  match os, ps with
  | Some os, Some ps =>
      length os = length ps
      /\ forall i o p, os !! i = Some o -> ps !! i = Some p -> backfilled i o p
  | None, None => True
  | _, _ => False
  end.

(** A normalised question carries the content of the parsed one. *)
Definition sameQuestion (q : Question) (p : ProcessWorksheet.ParsedQuestion)
    : Prop :=
  q_type q = ProcessWorksheet.pq_type p
  /\ q_text q = ProcessWorksheet.pq_text p
  /\ correctAnswer q = ProcessWorksheet.pq_correctAnswer p
  /\ sameOptions (options q) (ProcessWorksheet.pq_options p)
  /\ userAnswer q = ProcessWorksheet.pq_userAnswer p
  /\ isCorrect q = ProcessWorksheet.pq_isCorrect p.

Definition sameSection (s : WorksheetSection)
    (p : ProcessWorksheet.ParsedSection) : Prop :=
  s_title s = ProcessWorksheet.ps_title p
  /\ instructions s = ProcessWorksheet.ps_instructions p
  /\ Forall2 sameQuestion (questions s) (ProcessWorksheet.ps_questions p).

(** What the inner callback of [updateQuestionAnswer] returns for [q]. *)
Definition answerIf (questionId : jsstring) (answer : StrOrArr)
    (correct : bool) (q : Question) : Question :=
  if str_eqb (q_id q) questionId then withAnswer answer correct q else q.

Definition answerInSection (questionId : jsstring) (answer : StrOrArr)
    (correct : bool) (s : WorksheetSection) : WorksheetSection :=
  mkSection (s_id s) (s_title s) (instructions s)
    (List.map (answerIf questionId answer correct) (questions s)).

Definition hasQuestion (questionId : jsstring) (ss : list WorksheetSection)
    : bool :=
  existsb (fun s => existsb (fun q => str_eqb (q_id q) questionId) (questions s))
    ss.

(** The empty worksheet: no sections, hence no questions. *)
Definition emptyWorksheet : Worksheet :=
  mkWorksheet (js "w") (js "Empty") None [].

Definition someStudent : StudentInfo :=
  mkStudentInfo (js "Ana") (js "1/1/2025 at 10:00").

(** The first fill-blank question of the sample worksheet, as loaded. *)
Definition sampleBlank : Question :=
  WorksheetUpload.fillBlankQuestion "q6" (js "_______ mi turno.") "Es".

(** The upload did not produce a worksheet: the promise was rejected, or
    the result is the one [handleSubmit] reports as an error. *)
Definition uploadFails (o : WorksheetUpload.outcome) : Prop :=
  match o with
  | WorksheetUpload.Rejected => True
  | WorksheetUpload.Resolved r => WorksheetUpload.isFailure r = true
  end.

Definition someFile : WorksheetUpload.File :=
  WorksheetUpload.mkFile (js "sheet.png") (js "image/png").

(** [q'] is [q] with at most the answer and the verdict changed: it
    carries them when [q] has the id looked for, and is [q] otherwise. *)
Definition onlyAnswerChanged (questionId : jsstring) (answer : StrOrArr)
    (correct : bool) (q' q : Question) : Prop :=
  q_id q' = q_id q /\ q_type q' = q_type q /\ q_text q' = q_text q
  /\ options q' = options q /\ correctAnswer q' = correctAnswer q
  /\ (q_id q = questionId ->
      userAnswer q' = Some answer /\ isCorrect q' = Some correct)
  /\ (q_id q <> questionId -> q' = q).

(** The worksheet the endpoint returns for a parsed reply, when [n]
    identifiers have been drawn before. *)
Definition ingest (uuidv4 : nat -> jsstring)
    (parsed : ProcessWorksheet.ParsedWorksheet) (n : nat) : Worksheet :=
  (ProcessWorksheet.processedWorksheet uuidv4 parsed n).1.

(** A stand-in identifier source for examples: the [k]-th identifier is
    [k + 1] letters "u". *)
Definition sampleUuid (k : nat) : jsstring := replicate (S k) 117%N.

Definition sampleParsed : ProcessWorksheet.ParsedWorksheet :=
  ProcessWorksheet.mkParsedWorksheet (js "Colours") None
    [ ProcessWorksheet.mkParsedSection (js "Pick one") (js "Choose.")
        [ ProcessWorksheet.mkParsedQuestion MultipleChoice (js "Sky?")
            (Some [ ProcessWorksheet.mkParsedOption None (js "green");
                    ProcessWorksheet.mkParsedOption (Some (js "x")) (js "blue");
                    ProcessWorksheet.mkParsedOption (Some []) (js "red") ])
            (Str (js "x")) None None;
          ProcessWorksheet.mkParsedQuestion FillBlank (js "Grass is ___.")
            None (Arr [js "green"; js "Green"]) None None ] ].

(** ** Further vocabulary *)

(** The handlers of the worksheet page and of its question component:
    what can run between loading a worksheet and looking at the results. *)
Inductive quizStep `{Engine} : Storage -> Storage -> Prop :=
| quiz_answer question cs st :
    quizStep st (QuestionComponent.onClickSubmit question cs st).2
| quiz_next ps st :
    quizStep st (WorksheetPage.handleNextQuestion ps st).1.2
| quiz_finish ps st :
    quizStep st (WorksheetPage.handleFinish ps st).1.2.

(** [q.userAnswer !== undefined]. *)
Definition answered (q : Question) : bool :=
  bool_decide (is_Some (userAnswer q)).

Definition noWhiteSpace (s : jsstring) : Prop :=
  Forall (fun c => isWhiteSpace c = false) s.

Definition allWhiteSpace (s : jsstring) : Prop :=
  Forall (fun c => isWhiteSpace c = true) s.

(** The keys the application owns in [sessionStorage]. *)
Definition ownKeys : list string :=
  [WORKSHEET_KEY; CURRENT_QUESTION_KEY; STUDENT_INFO_KEY; COMPLETED_KEY].

(** A store holding the sample worksheet and a student. *)
Definition sampleStore : Storage :=
  saveStudentInfo someStudent
    (saveWorksheet WorksheetUpload.createSampleWorksheet ∅).

(** The question elements of a report, in document order, and the test
    for an answer line printed in green. *)
Definition allElements (c : PdfService.container)
    : list PdfService.questionElement :=
  flat_map PdfService.questionElements (PdfService.sectionElements c).

Definition isGreen (e : PdfService.questionElement) : bool :=
  match PdfService.answerColour e with
  | PdfService.Green => true
  | PdfService.Red => false
  end.

Definition hasCorrection (e : PdfService.questionElement) : bool :=
  match PdfService.correctAnswerHTML e with
  | Some _ => true
  | None => false
  end.

(** ** Vocabulary for replies and for the page's view of the session *)

(** The questions of a reply, in document order. *)
Definition replyQuestions (p : ProcessWorksheet.ParsedWorksheet)
    : list ProcessWorksheet.ParsedQuestion :=
  flat_map ProcessWorksheet.ps_questions (ProcessWorksheet.pw_sections p).

(** A reply question carries both fields or neither. *)
Definition replyAtomic (q : ProcessWorksheet.ParsedQuestion) : Prop :=
  is_Some (ProcessWorksheet.pq_userAnswer q)
  <-> is_Some (ProcessWorksheet.pq_isCorrect q).

Definition replyAnswered (q : ProcessWorksheet.ParsedQuestion) : bool :=
  bool_decide (is_Some (ProcessWorksheet.pq_userAnswer q)).

Definition replyCorrect (q : ProcessWorksheet.ParsedQuestion) : bool :=
  match ProcessWorksheet.pq_isCorrect q with Some true => true | _ => false end.

(** The replies whose worksheet, if any, has answers and verdicts
    together. *)
Definition atomicReply (o : WorksheetUpload.outcome) : Prop :=
  match o with
  | WorksheetUpload.Resolved r =>
      match WorksheetUpload.r_worksheet r with
      | Some w => worksheetAtomic w
      | None => True
      end
  | WorksheetUpload.Rejected => True
  end.

(** A reply in the requested format but for one question that comes
    with an answer and no verdict. *)
Definition halfAnsweredReply : ProcessWorksheet.ParsedWorksheet :=
  ProcessWorksheet.mkParsedWorksheet (js "Colours") None
    [ ProcessWorksheet.mkParsedSection (js "Fill in") (js "Complete.")
        [ ProcessWorksheet.mkParsedQuestion FillBlank (js "Grass is ___.")
            None (Str (js "green")) (Some (Str (js "green"))) None ] ].

(** The session after that reply has been uploaded. *)
Definition halfAnsweredStore : Storage :=
  WorksheetUpload.handleSubmit (Some someFile)
    (WorksheetUpload.Resolved
       (WorksheetUpload.mkResult
          (Some (ingest sampleUuid halfAnsweredReply 0)) None)) ∅.

(** A reply whose only question is marked correct and has no answer. *)
Definition markedCorrectReply : ProcessWorksheet.ParsedWorksheet :=
  ProcessWorksheet.mkParsedWorksheet (js "Colours") None
    [ ProcessWorksheet.mkParsedSection (js "Fill in") (js "Complete.")
        [ ProcessWorksheet.mkParsedQuestion FillBlank (js "Grass is ___.")
            None (Str (js "green")) None (Some true) ] ].

Definition markedCorrectStore : Storage :=
  WorksheetUpload.handleSubmit (Some someFile)
    (WorksheetUpload.Resolved
       (WorksheetUpload.mkResult
          (Some (ingest sampleUuid markedCorrectReply 0)) None)) ∅.



(** The number of questions of a worksheet that have a stored answer. *)
Definition answeredCount (w : Worksheet) : nat :=
  length (List.filter answered (questionsOf w)).

(** [ceil (t / 2)]. *)
Definition halfOf (t : nat) : Z :=
  Qceiling (inject_Z (Z.of_nat t) / (2 # 1))%Q.

(** The sample worksheet with its first [k] questions answered. *)
Fixpoint sampleAnswered (k : nat) : Storage :=
  match k with
  | 0 => saveWorksheet WorksheetUpload.createSampleWorksheet ∅
  | S k' =>
      updateQuestionAnswer (js "q" ++ natToString k) (Str (js "a")) false
        (sampleAnswered k')
  end.

(** The fifth question of the sample worksheet. *)
Definition sampleFifth : Question :=
  WorksheetUpload.matchingQuestion "q5" "Oh no, you slid down!" "a".

(** * Properties *)

(** ** Strings *)

Lemma isUpper_true (c : N) :
  isUpper c = true <->
  ((65 <= c <= 90) \/ (192 <= c <= 214) \/ (216 <= c <= 222))%N.
Proof.
  unfold isUpper.
  rewrite !orb_true_iff, !andb_true_iff, !N.leb_le. tauto.
Qed.

Lemma isUpper_false (c : N) :
  isUpper c = false <->
  ~ ((65 <= c <= 90) \/ (192 <= c <= 214) \/ (216 <= c <= 222))%N.
Proof.
  rewrite <- isUpper_true. destruct (isUpper c); split; congruence.
Qed.

Lemma lowerUnit_eq_iff (c d : N) : lowerUnit c = lowerUnit d <-> sameLetter c d.
Proof.
  unfold lowerUnit, sameLetter.
  destruct (isUpper c) eqn:Hc, (isUpper d) eqn:Hd;
    repeat match goal with
      | H : isUpper _ = true |- _ => apply (proj1 (isUpper_true _)) in H
      | H : isUpper _ = false |- _ => apply (proj1 (isUpper_false _)) in H
      end;
    split; intros H.
  all: try (destruct H as [H | [[H1 H2] | [H1 H2]]]; try discriminate); lia.
Qed.

Lemma map_lowerUnit_eq_iff (a b : jsstring) :
  List.map lowerUnit a = List.map lowerUnit b <-> sameLetters a b.
Proof.
  unfold sameLetters.
  revert b. induction a as [| c a IH]; intros [| d b]; simpl.
  - split; [constructor | reflexivity].
  - split; [discriminate | inversion 1].
  - split; [discriminate | inversion 1].
  - split.
    + intros H. injection H as H1 H2. constructor.
      * now apply lowerUnit_eq_iff.
      * now apply IH.
    + inversion 1; subst. f_equal.
      * now apply lowerUnit_eq_iff.
      * now apply IH.
Qed.

Lemma latin1_equalIgnoringCase `{Engine} (a b : jsstring) :
  lowersLatin1 -> isLatin1 a -> isLatin1 b ->
  (equalIgnoringCase a b <-> sameLetters a b).
Proof.
  intros L Ha Hb. unfold equalIgnoringCase.
  rewrite (L a Ha), (L b Hb). apply map_lowerUnit_eq_iff.
Qed.

Lemma latinEngine_lowersLatin1 : @lowersLatin1 latinEngine.
Proof. intros s _. reflexivity. Qed.

Lemma trimStart_spec (s : jsstring) :
  exists pre,
    s = pre ++ trimStart s
    /\ Forall (fun c => isWhiteSpace c = true) pre
    /\ (forall c, head (trimStart s) = Some c -> isWhiteSpace c = false).
Proof.
  induction s as [| c s IH]; simpl.
  - exists []. repeat split; [constructor | discriminate].
  - destruct (isWhiteSpace c) eqn:Hc.
    + destruct IH as (pre & E & F & H).
      exists (c :: pre). repeat split; simpl.
      * now f_equal.
      * now constructor.
      * exact H.
    + exists []. repeat split; [constructor |].
      simpl. intros c' [= <-]. exact Hc.
Qed.

Lemma trimEnd_spec (s : jsstring) :
  exists post,
    s = trimEnd s ++ post
    /\ Forall (fun c => isWhiteSpace c = true) post
    /\ (forall c, last (trimEnd s) = Some c -> isWhiteSpace c = false).
Proof.
  unfold trimEnd.
  destruct (trimStart_spec (reverse s)) as (pre & E & F & H).
  exists (reverse pre). repeat split.
  - rewrite <- reverse_app, <- E. symmetry. apply reverse_involutive.
  - now apply Forall_reverse.
  - intros c. rewrite last_reverse. apply H.
Qed.

Lemma trim_spec (s : jsstring) : trimmedOf s (trim s).
Proof.
  unfold trim.
  destruct (trimStart_spec s) as (pre & E1 & F1 & H1).
  destruct (trimEnd_spec (trimStart s)) as (post & E2 & F2 & H2).
  exists pre, post. repeat split; try assumption.
  - now rewrite <- E2.
  - intros c Hc. apply H1. rewrite E2. apply head_app_Some. now left.
Qed.

Lemma str_eqb_true (a b : jsstring) : str_eqb a b = true <-> a = b.
Proof. unfold str_eqb. apply bool_decide_eq_true. Qed.

Lemma str_eqb_refl (a : jsstring) : str_eqb a a = true.
Proof. now apply str_eqb_true. Qed.

Lemma truthy_true (s : jsstring) : truthy s = true <-> s <> [].
Proof. destruct s; simpl; split; congruence. Qed.

(** ** Answer evaluation *)





(** ** The Submit button *)

Lemma submitDisabled_false (q : Question) (cs : QuestionComponent.state) :
  QuestionComponent.submitDisabled q cs = false <->
  (isChoiceQuestion q /\ QuestionComponent.selectedOption cs <> [])
  \/ (isTextQuestion q /\ trim (QuestionComponent.textAnswer cs) <> []).
Proof.
  unfold QuestionComponent.submitDisabled, isChoiceQuestion, isTextQuestion.
  destruct (q_type q); rewrite negb_false_iff, truthy_true;
    intuition congruence.
Qed.

(** C9. The Submit button is enabled exactly when a choice question has a
    selected option or a text question has a submission that is not empty
    once trimmed; a click therefore only ever evaluates a non-empty
    answer, and a click on the disabled button changes nothing. *)
Theorem submit_needs_nonempty_answer `{Engine} (q : Question)
    (cs : QuestionComponent.state) :
  (QuestionComponent.submitDisabled q cs = false <->
   (isChoiceQuestion q /\ QuestionComponent.selectedOption cs <> [])
   \/ (isTextQuestion q /\ trim (QuestionComponent.textAnswer cs) <> []))
  /\ (forall answer correct,
        QuestionComponent.clickSubmit q cs = Some (answer, correct) ->
        (answer, correct) = QuestionComponent.evaluate q cs
        /\ exists s, answer = Str s /\ s <> [])
  /\ (forall st,
        QuestionComponent.submitDisabled q cs = true ->
        QuestionComponent.onClickSubmit q cs st = (cs, st)).
Proof.
  split; [apply submitDisabled_false |]. split.
  - intros answer correct. unfold QuestionComponent.clickSubmit.
    destruct (QuestionComponent.hasSubmitted cs); [discriminate |].
    destruct (QuestionComponent.submitDisabled q cs) eqn:Hd; [discriminate |].
    intros [= E]. split; [now symmetry |].
    apply submitDisabled_false in Hd.
    unfold QuestionComponent.evaluate, isChoiceQuestion, isTextQuestion in *.
    destruct (q_type q); injection E as <- _;
      destruct Hd as [[[?|?] Hs] | [[?|?] Hs]]; try discriminate;
      eexists; (split; [reflexivity | exact Hs]).
  - intros st Hd. unfold QuestionComponent.onClickSubmit,
      QuestionComponent.clickSubmit.
    rewrite Hd. now destruct (QuestionComponent.hasSubmitted cs).
Qed.

Lemma submit_needs_nonempty_answer_witness :
  exists s,
    (@QuestionComponent.evaluate latinEngine
       (WorksheetUpload.fillBlankQuestion "q6" (js "_______ mi turno.") "Es")
       (QuestionComponent.mkState [] (js " es ") false false)).1 = Str s
    /\ s <> [].
Proof.
  destruct (@submit_needs_nonempty_answer latinEngine
              (WorksheetUpload.fillBlankQuestion "q6"
                 (js "_______ mi turno.") "Es")
              (QuestionComponent.mkState [] (js " es ") false false))
    as (_ & H & _).
  destruct (H (Str (js "es")) true eq_refl) as (_ & s & E & Hs).
  exists s. split; [exact E | exact Hs].
Defined.

(** ** Early finish *)

Lemma showFinish_true (a t : nat) :
  WorksheetPage.showFinish a t = true <-> t <= 2 * a.
Proof.
  unfold WorksheetPage.showFinish. rewrite Qle_bool_iff.
  unfold Qle, Qdiv, Qmult, Qinv, inject_Z; simpl. lia.
Qed.

Lemma Qceiling_half (t : nat) :
  Qceiling (inject_Z (Z.of_nat t) / (2 # 1))%Q = ((Z.of_nat t + 1) / 2)%Z.
Proof.
  unfold Qceiling, Qfloor, Qopp, Qdiv, Qmult, Qinv, inject_Z; simpl.
  change (Z.pos (1 * 2)) with 2%Z. rewrite Z.mul_1_r.
  Z.to_euclidean_division_equations. lia.
Qed.

Lemma fold_left_add_flat {A B} (f : A -> list B) (l : list A) (a : nat) :
  fold_left (fun total x => total + length (f x)) l a
  = a + length (flat_map f l).
Proof.
  revert a. induction l as [| x l IH]; intros a; simpl; [lia |].
  rewrite IH, List.length_app. lia.
Qed.

Lemma filter_flat_map {A B} (p : B -> bool) (f : A -> list B) (l : list A) :
  List.filter p (flat_map f l) = flat_map (fun x => List.filter p (f x)) l.
Proof.
  induction l as [| x l IH]; simpl; [reflexivity |].
  now rewrite List.filter_app, IH.
Qed.

Lemma counts_as_lengths (st : Storage) :
  getTotalQuestionsCount st = length (getAllQuestions st)
  /\ getCompletedQuestionsCount st
     = length (List.filter answered (getAllQuestions st))
  /\ getCorrectAnswersCount st
     = length (List.filter isCorrectTruthy (getAllQuestions st)).
Proof.
  unfold getTotalQuestionsCount, getCompletedQuestionsCount,
    getCorrectAnswersCount, getAllQuestions.
  destruct (getWorksheet st) as [w |]; [| repeat split].
  split; [| split; [| reflexivity]].
  - now rewrite fold_left_add_flat.
  - rewrite filter_flat_map.
    now rewrite (fold_left_add_flat
                   (fun s => List.filter answered (questions s))).
Qed.

Lemma render_mount (st : Storage) :
  WorksheetPage.render (WorksheetPage.mount st)
  = match getAllQuestions st with
    | [] => WorksheetPage.Loading
    | _ :: _ =>
        WorksheetPage.Page
          (getAllQuestions st !! getCurrentQuestionIndex st)
          (if WorksheetPage.showFinish (getCompletedQuestionsCount st)
                (getTotalQuestionsCount st)
           then Some (getCompletedQuestionsCount st, getTotalQuestionsCount st)
           else None)
          (WorksheetPage.showFinish (getCompletedQuestionsCount st)
             (getTotalQuestionsCount st)
           && (getCompletedQuestionsCount st <? getTotalQuestionsCount st))
    end.
Proof.
  unfold WorksheetPage.render, WorksheetPage.mount; simpl.
  unfold getAllQuestions.
  destruct (getWorksheet st) as [w |]; [| reflexivity].
  now destruct (flat_map questions (sections w)).
Qed.

Lemma showFinish_half (a t : nat) :
  WorksheetPage.showFinish a t = true <-> (halfOf t <= Z.of_nat a)%Z.
Proof.
  unfold halfOf. rewrite showFinish_true, Qceiling_half.
  split; intros H; Z.to_euclidean_division_equations; lia.
Qed.

Lemma render_finish (ps : WorksheetPage.state) :
  WorksheetPage.worksheet ps <> None ->
  WorksheetPage.allQuestions ps <> [] ->
  WorksheetPage.finishAvailable (WorksheetPage.render ps)
  = WorksheetPage.showFinish (WorksheetPage.completedCount ps)
      (WorksheetPage.totalCount ps).
Proof.
  intros Hw Hq. unfold WorksheetPage.render.
  destruct (WorksheetPage.worksheet ps); [| congruence].
  destruct (WorksheetPage.allQuestions ps); [congruence |]. simpl.
  now destruct (WorksheetPage.showFinish _ _).
Qed.

(** C4, the claim as stated fails: the page counts the answers when it
    is opened and when Next Question is clicked, not when an answer is
    submitted.  With ten questions, four of them answered when the page
    was opened, submitting the fifth leaves five answers in the session,
    which is half of ten, and still no Finish button; it comes with the
    next click on Next Question. *)
Lemma finish_lags_behind_the_fifth_answer :
  (exists w,
     getWorksheet
       (@QuestionComponent.onClickSubmit latinEngine sampleFifth
          (QuestionComponent.mkState (js "a") [] false false)
          (sampleAnswered 4)).2 = Some w
     /\ length (questionsOf w) = 10
     /\ answeredCount w = 5
     /\ (halfOf (length (questionsOf w)) <= Z.of_nat (answeredCount w))%Z)
  /\ WorksheetPage.finishAvailable
       (WorksheetPage.render (WorksheetPage.mount (sampleAnswered 4)))
     = false
  /\ WorksheetPage.finishAvailable
       (WorksheetPage.render
          (WorksheetPage.handleNextQuestion
             (WorksheetPage.mount (sampleAnswered 4))
             (@QuestionComponent.onClickSubmit latinEngine sampleFifth
                (QuestionComponent.mkState (js "a") [] false false)
                (sampleAnswered 4)).2).1.1)
     = true.
Proof.
  split; [| split; vm_compute; reflexivity].
  eexists. split; [vm_compute; reflexivity |].
  split; [| split]; vm_compute; congruence.
Qed.

(** C4, amended. On a session whose worksheet has [t > 0] questions, [a]
    of them with a stored answer, the page as it is opened offers Finish
    exactly when [a >= ceil (t / 2)], and so does the page as a click on
    Next Question leaves it, which counts the stored answers anew; with
    ten questions that is at five answers and not at four.  In between
    the page goes by its own count: whatever its state, Finish is offered
    exactly when the count it holds is at least [ceil (t / 2)], the guard
    [count >= t / 2] over the rationals and the integer threshold being
    the same. *)
Theorem finish_available_from_half (st : Storage) (w : Worksheet)
    (Hw : getWorksheet st = Some w) (Ht : 0 < length (questionsOf w)) :
  (WorksheetPage.finishAvailable
     (WorksheetPage.render (WorksheetPage.mount st)) = true
   <-> (halfOf (length (questionsOf w)) <= Z.of_nat (answeredCount w))%Z)
  /\ (forall ps,
        WorksheetPage.worksheet ps <> None ->
        length (WorksheetPage.allQuestions ps) = length (questionsOf w) ->
        WorksheetPage.totalCount ps = length (questionsOf w) ->
        (WorksheetPage.finishAvailable
           (WorksheetPage.render
              (WorksheetPage.handleNextQuestion ps st).1.1) = true
         <-> (halfOf (length (questionsOf w))
              <= Z.of_nat (answeredCount w))%Z))
  /\ (length (questionsOf w) = 10 ->
      (answeredCount w = 5 ->
       WorksheetPage.finishAvailable
         (WorksheetPage.render (WorksheetPage.mount st)) = true)
      /\ (answeredCount w = 4 ->
          WorksheetPage.finishAvailable
            (WorksheetPage.render (WorksheetPage.mount st)) = false))
  /\ (forall ps,
        WorksheetPage.worksheet ps <> None ->
        WorksheetPage.allQuestions ps <> [] ->
        (WorksheetPage.finishAvailable (WorksheetPage.render ps) = true
         <-> (halfOf (WorksheetPage.totalCount ps)
              <= Z.of_nat (WorksheetPage.completedCount ps))%Z))
  /\ (forall a t,
        WorksheetPage.showFinish a t = true <-> (halfOf t <= Z.of_nat a)%Z)
  /\ WorksheetPage.showFinish 5 10 = true
  /\ WorksheetPage.showFinish 4 10 = false.
Proof.
  assert (Q : getAllQuestions st = questionsOf w).
  { unfold getAllQuestions. now rewrite Hw. }
  destruct (counts_as_lengths st) as (T & C & _).
  rewrite Q in T, C. fold (answeredCount w) in C.
  assert (M : WorksheetPage.finishAvailable
                (WorksheetPage.render (WorksheetPage.mount st)) = true
              <-> (halfOf (length (questionsOf w))
                   <= Z.of_nat (answeredCount w))%Z).
  { rewrite render_finish; simpl.
    - rewrite T, C. apply showFinish_half.
    - rewrite Hw. discriminate.
    - rewrite Q. destruct (questionsOf w); [simpl in Ht; lia | discriminate]. }
  split; [exact M |].
  split; [| split; [| split; [| split; [| split; reflexivity]]]].
  - intros ps Hp Hl Htot.
    assert (N : WorksheetPage.allQuestions ps <> []).
    { destruct (WorksheetPage.allQuestions ps); [simpl in Hl; lia |].
      discriminate. }
    unfold WorksheetPage.handleNextQuestion.
    destruct (_ <? _)%Z; simpl; rewrite render_finish by assumption; simpl;
      rewrite C, Htot; apply showFinish_half.
  - intros E. rewrite E in M. split; intros A; rewrite A in M.
    + apply M. vm_compute. discriminate.
    + destruct (WorksheetPage.finishAvailable _); [| reflexivity].
      exfalso. assert (B : (halfOf 10 <= Z.of_nat 4)%Z) by now apply M.
      vm_compute in B. congruence.
  - intros ps Hp Hq. rewrite render_finish by assumption.
    apply showFinish_half.
  - apply showFinish_half.
Qed.

Lemma finish_available_from_half_witness :
  WorksheetPage.finishAvailable
    (WorksheetPage.render (WorksheetPage.mount (sampleAnswered 5))) = true.
Proof.
  assert (Hw : getWorksheet (sampleAnswered 5)
               = Some (default WorksheetUpload.createSampleWorksheet
                         (getWorksheet (sampleAnswered 5))))
    by (vm_compute; reflexivity).
  assert (Ht : 0 < length
                     (questionsOf
                        (default WorksheetUpload.createSampleWorksheet
                           (getWorksheet (sampleAnswered 5)))))
    by (vm_compute; lia).
  destruct (finish_available_from_half (sampleAnswered 5) _ Hw Ht)
    as (H & _).
  apply H. vm_compute. discriminate.
Defined.

(** ** Scores *)

Lemma fold_left_add_le {A} (f g : A -> nat) (l : list A) (a b : nat) :
  (forall x, f x <= g x) -> a <= b ->
  fold_left (fun sum x => sum + f x) l a
  <= fold_left (fun sum x => sum + g x) l b.
Proof.
  intros Hfg. revert a b.
  induction l as [| x l IH]; simpl; intros a b Hab; [exact Hab |].
  apply IH. specialize (Hfg x). lia.
Qed.

Lemma correctAnswers_le_total (w : Worksheet) :
  PdfService.correctAnswers w <= PdfService.totalQuestions w.
Proof.
  unfold PdfService.correctAnswers, PdfService.totalQuestions.
  apply fold_left_add_le; [| lia].
  intros s. apply List.filter_length_le.
Qed.

Lemma scorePercent_zero_total (w : Worksheet) :
  PdfService.totalQuestions w = 0 -> PdfService.scorePercent w = NaN.
Proof.
  intros H. pose proof (correctAnswers_le_total w) as L.
  unfold PdfService.scorePercent. rewrite H in *.
  now replace (PdfService.correctAnswers w) with 0 by lia.
Qed.

Lemma scorePercent_positive_total (w : Worksheet) :
  0 < PdfService.totalQuestions w -> isNaN (PdfService.scorePercent w) = false.
Proof.
  unfold PdfService.scorePercent. intros H.
  now destruct (PdfService.totalQuestions w); [lia |].
Qed.

(** C2, as the code has it. A worksheet without questions scores 0 out of
    0, and the percentage computed from it, in the report and on the
    results page alike, is [NaN]: there is no special case for an empty
    worksheet. *)
Theorem score_of_empty_worksheet_is_NaN :
  PdfService.totalQuestions emptyWorksheet = 0
  /\ PdfService.scorePercent emptyWorksheet = NaN
  /\ PdfService.score (PdfService.generatePDF emptyWorksheet someStudent)
     = (0, 0, NaN)
  /\ getTotalQuestionsCount (saveWorksheet emptyWorksheet ∅) = 0
  /\ Results.scorePercent (saveWorksheet emptyWorksheet ∅) = NaN
  /\ Results.scoreEffect
       (markAsCompleted true
          (saveStudentInfo someStudent (saveWorksheet emptyWorksheet ∅)))
     = Results.Scored 0 0 NaN.
Proof.
  assert (T : PdfService.totalQuestions emptyWorksheet = 0) by reflexivity.
  split; [exact T |].
  split; [now apply scorePercent_zero_total |].
  split; [unfold PdfService.generatePDF; simpl;
          now rewrite (scorePercent_zero_total _ T) |].
  split; [| split]; vm_compute; reflexivity.
Qed.

(** ** Report *)

Lemma renderQuestion_answer (i : nat) (q : Question) :
  PdfService.userAnswerHTML (PdfService.renderQuestion i q)
  = js "<p><strong>Your answer:</strong> " ++ PdfService.shownAnswer q
      ++ js "</p>".
Proof.
  unfold PdfService.renderQuestion. now destruct (isCorrectTruthy q).
Qed.

Lemma renderQuestion_correct (i : nat) (q : Question) :
  PdfService.correctAnswerHTML (PdfService.renderQuestion i q)
  = if isCorrectTruthy q then None
    else Some (js "<strong>Correct answer:</strong> "
                 ++ PdfService.shownCorrect (correctAnswer q)).
Proof.
  unfold PdfService.renderQuestion. now destruct (isCorrectTruthy q).
Qed.

Lemma isCorrectTruthy_true (q : Question) :
  isCorrectTruthy q = true <-> isCorrect q = Some true.
Proof.
  unfold isCorrectTruthy.
  destruct (isCorrect q) as [[|] |]; split; congruence.
Qed.

Lemma generatePDF_element (w : Worksheet) (info : StudentInfo)
    (i j : nat) (s : WorksheetSection) (q : Question) :
  sections w !! i = Some s -> questions s !! j = Some q ->
  exists se,
    PdfService.sectionElements (PdfService.generatePDF w info) !! i = Some se
    /\ PdfService.sectionTitle se = s_title s
    /\ PdfService.questionElements se !! j
       = Some (PdfService.renderQuestion j q).
Proof.
  intros Hs Hq. exists (PdfService.renderSection s).
  unfold PdfService.generatePDF; simpl. split; [| split].
  - change (List.map PdfService.renderSection (sections w))
      with (PdfService.renderSection <$> sections w).
    now rewrite list_lookup_fmap, Hs.
  - reflexivity.
  - simpl. now rewrite list_lookup_imap, Hq.
Qed.

(** C3, the claim as stated fails: the first fill-blank question of the
    freshly loaded sample worksheet is unanswered, yet the report puts
    the correct answer "Es" under it. *)
Lemma report_shows_key_under_unanswered :
  unanswered sampleBlank
  /\ (exists se,
        PdfService.sectionElements
          (PdfService.generatePDF WorksheetUpload.createSampleWorksheet
             someStudent) !! 1 = Some se
        /\ PdfService.questionElements se !! 0
           = Some (PdfService.renderQuestion 0 sampleBlank))
  /\ PdfService.userAnswerHTML (PdfService.renderQuestion 0 sampleBlank)
     = js "<p><strong>Your answer:</strong> Not answered</p>"
  /\ PdfService.correctAnswerHTML (PdfService.renderQuestion 0 sampleBlank)
     = Some (js "<strong>Correct answer:</strong> Es")
  /\ ~ (is_Some (PdfService.correctAnswerHTML
                   (PdfService.renderQuestion 0 sampleBlank))
        <-> answeredIncorrectly sampleBlank).
Proof.
  split; [split; reflexivity |].
  split; [eexists; split; reflexivity |].
  split; [reflexivity |]. split; [reflexivity |].
  intros [H _]. destruct H as [[a Ha] _]; [now eexists | discriminate Ha].
Qed.

(** C3, amended. Every question of the worksheet has its element in the
    report, at the same place; the element shows the stored answer, or
    "Not answered" when none is stored (or the stored string is empty);
    and the correct answer, or the accepted answers joined by ", ", stands
    under it exactly when the question is not marked correct: for a wrong
    answer and for an unanswered question, never for a correct one. *)
Theorem report_shows_answers (w : Worksheet) (info : StudentInfo)
    (i j : nat) (s : WorksheetSection) (q : Question)
    (Hs : sections w !! i = Some s) (Hq : questions s !! j = Some q) :
  exists se e,
    PdfService.sectionElements (PdfService.generatePDF w info) !! i = Some se
    /\ PdfService.questionElements se !! j = Some e
    /\ PdfService.userAnswerHTML e
       = js "<p><strong>Your answer:</strong> " ++ PdfService.shownAnswer q
           ++ js "</p>"
    /\ (userAnswer q = None -> PdfService.shownAnswer q = js "Not answered")
    /\ (userAnswer q = Some (Str []) ->
        PdfService.shownAnswer q = js "Not answered")
    /\ (forall a, userAnswer q = Some (Str a) -> a <> [] ->
        PdfService.shownAnswer q = a)
    /\ (forall l, userAnswer q = Some (Arr l) ->
        PdfService.shownAnswer q = join (js ",") l)
    /\ (PdfService.correctAnswerHTML e
        = Some (js "<strong>Correct answer:</strong> "
                  ++ PdfService.shownCorrect (correctAnswer q))
        <-> isCorrect q <> Some true)
    /\ (PdfService.correctAnswerHTML e = None <-> isCorrect q = Some true)
    /\ (answeredIncorrectly q -> is_Some (PdfService.correctAnswerHTML e))
    /\ (unanswered q -> is_Some (PdfService.correctAnswerHTML e))
    /\ (forall l, correctAnswer q = Arr l ->
        PdfService.shownCorrect (correctAnswer q) = join (js ", ") l)
    /\ (forall c, correctAnswer q = Str c ->
        PdfService.shownCorrect (correctAnswer q) = c).
Proof.
  destruct (generatePDF_element w info i j s q Hs Hq) as (se & E1 & _ & E2).
  exists se, (PdfService.renderQuestion j q).
  split; [exact E1 |]. split; [exact E2 |].
  split; [apply renderQuestion_answer |].
  rewrite renderQuestion_correct.
  pose proof (isCorrectTruthy_true q) as T.
  unfold PdfService.shownAnswer.
  repeat match goal with |- _ /\ _ => split end.
  - now intros ->.
  - now intros ->.
  - intros a -> Ha. now destruct a.
  - now intros l ->.
  - destruct (isCorrectTruthy q); split; try congruence.
    + intros H. exfalso. apply H. now apply T.
    + intros _ H. apply T in H. discriminate.
  - destruct (isCorrectTruthy q); split; try congruence.
    + intros _. now apply T.
    + intros H. apply T in H. discriminate.
  - intros [_ H]. destruct (isCorrectTruthy q); [| now eexists].
    destruct T as [T _]. rewrite T in H by reflexivity. discriminate.
  - intros [_ H]. destruct (isCorrectTruthy q); [| now eexists].
    destruct T as [T _]. rewrite T in H by reflexivity. discriminate.
  - now intros l ->.
  - now intros c ->.
Qed.

Lemma report_shows_answers_witness :
  exists se e,
    PdfService.sectionElements
      (PdfService.generatePDF WorksheetUpload.createSampleWorksheet
         someStudent) !! 1 = Some se
    /\ PdfService.questionElements se !! 0 = Some e
    /\ PdfService.userAnswerHTML e
       = js "<p><strong>Your answer:</strong> "
           ++ PdfService.shownAnswer sampleBlank ++ js "</p>".
Proof.
  destruct (report_shows_answers WorksheetUpload.createSampleWorksheet
              someStudent 1 0
              (mkSection (js "section-2") (js "Fill in the blanks")
                 (js "Fill in the missing Spanish words:")
                 (drop 5 (questionsOf WorksheetUpload.createSampleWorksheet)))
              sampleBlank eq_refl eq_refl)
    as (se & e & H1 & H2 & H3 & _).
  exists se, e. split; [exact H1 |]. split; [exact H2 | exact H3].
Defined.

(** ** Session store: clearing and the four slots *)

Lemma clearStorage_lookup (st : Storage) :
  clearStorage st !! WORKSHEET_KEY = None
  /\ clearStorage st !! CURRENT_QUESTION_KEY = None
  /\ clearStorage st !! STUDENT_INFO_KEY = None
  /\ clearStorage st !! COMPLETED_KEY = None.
Proof.
  unfold clearStorage, removeItem.
  repeat split; rewrite !lookup_delete; repeat case_decide; done.
Qed.

Lemma clearStorage_getters (st : Storage) :
  getWorksheet (clearStorage st) = None
  /\ getCurrentQuestionIndex (clearStorage st) = 0
  /\ getStudentInfo (clearStorage st) = None
  /\ isCompleted (clearStorage st) = false.
Proof.
  destruct (clearStorage_lookup st) as (E1 & E2 & E3 & E4).
  unfold getWorksheet, getCurrentQuestionIndex, getStudentInfo, isCompleted,
    getItem.
  now rewrite E1, E2, E3, E4.
Qed.

(** C10. Submitting a file clears the four slots before the ingestion
    call is made, so the call runs against an empty session; when the
    ingestion fails the handler stores nothing, and the session stays
    empty: no worksheet, index 0, no student info, not completed, whatever
    was stored before.  Without a file the handler returns before
    clearing and the store is as it was. *)
Theorem failed_upload_leaves_empty_session (st : Storage)
    (f : WorksheetUpload.File) (o : WorksheetUpload.outcome)
    (Hfail : uploadFails o) :
  WorksheetUpload.handleSubmit_begin (Some f) st = (clearStorage st, Some f)
  /\ (getWorksheet (clearStorage st) = None
      /\ getCurrentQuestionIndex (clearStorage st) = 0
      /\ getStudentInfo (clearStorage st) = None
      /\ isCompleted (clearStorage st) = false)
  /\ WorksheetUpload.handleSubmit (Some f) o st = clearStorage st
  /\ (getWorksheet (WorksheetUpload.handleSubmit (Some f) o st) = None
      /\ getCurrentQuestionIndex (WorksheetUpload.handleSubmit (Some f) o st)
         = 0
      /\ getStudentInfo (WorksheetUpload.handleSubmit (Some f) o st) = None
      /\ isCompleted (WorksheetUpload.handleSubmit (Some f) o st) = false)
  /\ WorksheetUpload.handleSubmit_begin None st = (st, None)
  /\ WorksheetUpload.handleSubmit None o st = st.
Proof.
  assert (E : WorksheetUpload.handleSubmit (Some f) o st = clearStorage st).
  { unfold WorksheetUpload.handleSubmit; simpl.
    destruct o as [r |]; simpl in *; [now rewrite Hfail | reflexivity]. }
  rewrite E.
  split; [reflexivity |].
  split; [apply clearStorage_getters |].
  split; [reflexivity |].
  split; [apply clearStorage_getters |].
  split; reflexivity.
Qed.

Lemma failed_upload_leaves_empty_session_witness :
  getWorksheet
    (WorksheetUpload.handleSubmit (Some someFile) WorksheetUpload.Rejected
       (saveStudentInfo someStudent
          (saveWorksheet WorksheetUpload.createSampleWorksheet ∅)))
  = None.
Proof.
  destruct (failed_upload_leaves_empty_session
              (saveStudentInfo someStudent
                 (saveWorksheet WorksheetUpload.createSampleWorksheet ∅))
              someFile WorksheetUpload.Rejected I)
    as (_ & _ & _ & (H & _) & _).
  exact H.
Defined.

(** ** Recording an answer *)

Lemma updateQuestions_eq (questionId : jsstring) (answer : StrOrArr)
    (correct : bool) (qs : list Question) (u : bool) :
  updateQuestions questionId answer correct qs u
  = (List.map (answerIf questionId answer correct) qs,
     u || existsb (fun q => str_eqb (q_id q) questionId) qs).
Proof.
  revert u. induction qs as [| q qs IH]; intros u; simpl.
  - now rewrite orb_false_r.
  - unfold updateQuestion, answerIf, withAnswer.
    destruct (str_eqb (q_id q) questionId); rewrite IH; simpl.
    + now rewrite orb_true_r.
    + reflexivity.
Qed.

Lemma updateSections_eq (questionId : jsstring) (answer : StrOrArr)
    (correct : bool) (ss : list WorksheetSection) (u : bool) :
  updateSections questionId answer correct ss u
  = (List.map (answerInSection questionId answer correct) ss,
     u || hasQuestion questionId ss).
Proof.
  revert u. induction ss as [| s ss IH]; intros u; simpl.
  - now rewrite orb_false_r.
  - rewrite updateQuestions_eq, IH. unfold answerInSection.
    now rewrite orb_assoc.
Qed.

Lemma updateQuestionAnswer_eq (questionId : jsstring) (answer : StrOrArr)
    (correct : bool) (st : Storage) :
  updateQuestionAnswer questionId answer correct st
  = match getWorksheet st with
    | None => st
    | Some w =>
        if hasQuestion questionId (sections w) then
          saveWorksheet
            (mkWorksheet (w_id w) (w_title w) (description w)
               (List.map (answerInSection questionId answer correct)
                  (sections w))) st
        else st
    end.
Proof.
  unfold updateQuestionAnswer.
  destruct (getWorksheet st) as [w |]; [| reflexivity].
  now rewrite updateSections_eq.
Qed.

Lemma answerIf_id (questionId : jsstring) (answer : StrOrArr)
    (correct : bool) (q : Question) :
  q_id (answerIf questionId answer correct q) = q_id q.
Proof. unfold answerIf. now destruct (str_eqb (q_id q) questionId). Qed.

Lemma answerIf_idem (questionId : jsstring) (answer : StrOrArr)
    (correct : bool) (q : Question) :
  answerIf questionId answer correct (answerIf questionId answer correct q)
  = answerIf questionId answer correct q.
Proof.
  unfold answerIf at 1. rewrite answerIf_id.
  unfold answerIf. now destruct (str_eqb (q_id q) questionId).
Qed.

Lemma answerInSection_idem (questionId : jsstring) (answer : StrOrArr)
    (correct : bool) (s : WorksheetSection) :
  answerInSection questionId answer correct
    (answerInSection questionId answer correct s)
  = answerInSection questionId answer correct s.
Proof.
  unfold answerInSection; simpl. f_equal.
  rewrite List.map_map. apply List.map_ext. intros q. apply answerIf_idem.
Qed.

Lemma hasQuestion_answered (questionId : jsstring) (answer : StrOrArr)
    (correct : bool) (ss : list WorksheetSection) :
  hasQuestion questionId
    (List.map (answerInSection questionId answer correct) ss)
  = hasQuestion questionId ss.
Proof.
  unfold hasQuestion. induction ss as [| s ss IH]; simpl; [reflexivity |].
  rewrite IH. f_equal.
  induction (questions s) as [| q qs IHq]; simpl; [reflexivity |].
  now rewrite IHq, answerIf_id.
Qed.

Lemma getWorksheet_saveWorksheet (w : Worksheet) (st : Storage) :
  getWorksheet (saveWorksheet w st) = Some w.
Proof.
  unfold getWorksheet, saveWorksheet, getItem, setItem.
  now rewrite lookup_insert_eq.
Qed.

Lemma saveWorksheet_twice (w w' : Worksheet) (st : Storage) :
  saveWorksheet w' (saveWorksheet w st) = saveWorksheet w' st.
Proof. unfold saveWorksheet, setItem. apply insert_insert_eq. Qed.

(** C5. Recording the same answer for the same question a second time
    leaves the store, the stored worksheet and the flattened question list
    as the first call left them. *)
Theorem updateQuestionAnswer_idempotent (st : Storage)
    (questionId : jsstring) (answer : StrOrArr) (correct : bool) :
  updateQuestionAnswer questionId answer correct
    (updateQuestionAnswer questionId answer correct st)
  = updateQuestionAnswer questionId answer correct st
  /\ getWorksheet
       (updateQuestionAnswer questionId answer correct
          (updateQuestionAnswer questionId answer correct st))
     = getWorksheet (updateQuestionAnswer questionId answer correct st)
  /\ getAllQuestions
       (updateQuestionAnswer questionId answer correct
          (updateQuestionAnswer questionId answer correct st))
     = getAllQuestions (updateQuestionAnswer questionId answer correct st).
Proof.
  assert (E : updateQuestionAnswer questionId answer correct
                (updateQuestionAnswer questionId answer correct st)
              = updateQuestionAnswer questionId answer correct st).
  { rewrite (updateQuestionAnswer_eq _ _ _ st).
    destruct (getWorksheet st) as [w |] eqn:Hw.
    - destruct (hasQuestion questionId (sections w)) eqn:Hq.
      + rewrite updateQuestionAnswer_eq, getWorksheet_saveWorksheet; simpl.
        rewrite hasQuestion_answered, Hq, saveWorksheet_twice.
        f_equal. f_equal. rewrite List.map_map.
        apply List.map_ext. intros s. apply answerInSection_idem.
      + now rewrite updateQuestionAnswer_eq, Hw, Hq.
    - now rewrite updateQuestionAnswer_eq, Hw. }
  now rewrite E.
Qed.

Lemma questionsOf_answered (questionId : jsstring) (answer : StrOrArr)
    (correct : bool) (ss : list WorksheetSection) :
  flat_map questions
    (List.map (answerInSection questionId answer correct) ss)
  = List.map (answerIf questionId answer correct) (flat_map questions ss).
Proof.
  induction ss as [| s ss IH]; simpl; [reflexivity |].
  now rewrite IH, List.map_app.
Qed.

Lemma hasQuestion_In (questionId : jsstring) (ss : list WorksheetSection) :
  hasQuestion questionId ss = true
  <-> In questionId (List.map q_id (flat_map questions ss)).
Proof.
  unfold hasQuestion. rewrite existsb_exists, in_map_iff. split.
  - intros (s & Hs & H). apply existsb_exists in H as (q & Hq & E).
    exists q. split; [now apply str_eqb_true |].
    apply in_flat_map. now exists s.
  - intros (q & E & H). apply in_flat_map in H as (s & Hs & Hq).
    exists s. split; [assumption |].
    apply existsb_exists. exists q. split; [assumption |].
    now apply str_eqb_true.
Qed.

Lemma answerIf_other (questionId : jsstring) (answer : StrOrArr)
    (correct : bool) (q : Question) :
  q_id q <> questionId -> answerIf questionId answer correct q = q.
Proof.
  intros H. unfold answerIf.
  destruct (str_eqb (q_id q) questionId) eqn:E; [| reflexivity].
  now apply str_eqb_true in E.
Qed.

Lemma answerIf_same (questionId : jsstring) (answer : StrOrArr)
    (correct : bool) (q : Question) :
  q_id q = questionId ->
  answerIf questionId answer correct q = withAnswer answer correct q.
Proof.
  intros <-. unfold answerIf. now rewrite str_eqb_refl.
Qed.

Lemma answerIf_onlyAnswerChanged (questionId : jsstring) (answer : StrOrArr)
    (correct : bool) (q : Question) :
  onlyAnswerChanged questionId answer correct
    (answerIf questionId answer correct q) q.
Proof.
  unfold onlyAnswerChanged.
  destruct (decide (q_id q = questionId)) as [E | E].
  - rewrite (answerIf_same _ _ _ _ E). simpl. intuition.
  - rewrite (answerIf_other _ _ _ _ E). intuition.
Qed.

Lemma map_answerIf_others (questionId : jsstring) (answer : StrOrArr)
    (correct : bool) (l : list Question) :
  ~ In questionId (List.map q_id l) ->
  List.map (answerIf questionId answer correct) l = l.
Proof.
  induction l as [| q l IH]; simpl; [reflexivity |].
  intros H. rewrite IH by tauto. f_equal.
  apply answerIf_other. intros E. apply H. now left.
Qed.

Lemma hasQuestion_false (questionId : jsstring) (answer : StrOrArr)
    (correct : bool) (ss : list WorksheetSection) :
  hasQuestion questionId ss = false ->
  List.map (answerInSection questionId answer correct) ss = ss.
Proof.
  intros H.
  assert (N : ~ In questionId (List.map q_id (flat_map questions ss))).
  { intros I. apply hasQuestion_In in I. congruence. }
  clear H. induction ss as [| s ss IH]; simpl in *; [reflexivity |].
  rewrite List.map_app, in_app_iff in N.
  rewrite IH by tauto. f_equal.
  unfold answerInSection. rewrite map_answerIf_others by tauto.
  now destruct s.
Qed.

Lemma saveWorksheet_other (w : Worksheet) (st : Storage) (k : string) :
  k <> WORKSHEET_KEY -> saveWorksheet w st !! k = st !! k.
Proof.
  intros H. unfold saveWorksheet, setItem. now rewrite lookup_insert_ne.
Qed.

(** C6. Recording an answer touches the worksheet slot only.  In the
    stored worksheet its id, title and description, and every section's
    id, title and instructions stay; the questions stay in place, each
    either untouched or, when its id is the one given, carrying the answer
    and the verdict with all other fields as before.  When question ids
    are unique the flattened list differs at that one question only.
    Without a stored worksheet, or without a question of that id, the
    store is unchanged. *)
Theorem updateQuestionAnswer_frame (st : Storage) (questionId : jsstring)
    (answer : StrOrArr) (correct : bool) :
  (forall k, k <> WORKSHEET_KEY ->
     updateQuestionAnswer questionId answer correct st !! k = st !! k)
  /\ (getWorksheet st = None ->
      updateQuestionAnswer questionId answer correct st = st)
  /\ (forall w, getWorksheet st = Some w ->
      (~ In questionId (List.map q_id (questionsOf w)) ->
       updateQuestionAnswer questionId answer correct st = st)
      /\ exists w',
           getWorksheet (updateQuestionAnswer questionId answer correct st)
           = Some w'
           /\ w_id w' = w_id w /\ w_title w' = w_title w
           /\ description w' = description w
           /\ List.map sectionHeader (sections w')
              = List.map sectionHeader (sections w)
           /\ Forall2
                (fun s' s =>
                   Forall2 (onlyAnswerChanged questionId answer correct)
                     (questions s') (questions s))
                (sections w') (sections w)
           /\ (NoDup (List.map q_id (questionsOf w)) ->
               forall l1 q l2,
                 questionsOf w = l1 ++ q :: l2 -> q_id q = questionId ->
                 questionsOf w' = l1 ++ withAnswer answer correct q :: l2)).
Proof.
  rewrite updateQuestionAnswer_eq.
  split; [| split].
  - intros k Hk. destruct (getWorksheet st) as [w |]; [| reflexivity].
    destruct (hasQuestion questionId (sections w)); [| reflexivity].
    now apply saveWorksheet_other.
  - now intros ->.
  - intros w Hw. rewrite Hw. split.
    + intros H. destruct (hasQuestion questionId (sections w)) eqn:E;
        [| reflexivity].
      now apply hasQuestion_In in E.
    + assert (F : forall ss,
                Forall2
                  (fun s' s =>
                     Forall2 (onlyAnswerChanged questionId answer correct)
                       (questions s') (questions s))
                  (List.map (answerInSection questionId answer correct) ss) ss).
      { induction ss as [| s ss IH]; simpl; constructor; [| exact IH].
        simpl. induction (questions s) as [| q qs IHq]; simpl; constructor;
          [apply answerIf_onlyAnswerChanged | exact IHq]. }
      destruct (hasQuestion questionId (sections w)) eqn:E.
      * eexists. split; [apply getWorksheet_saveWorksheet |]. simpl.
        repeat match goal with |- _ /\ _ => split end; try reflexivity.
        -- rewrite List.map_map. now apply List.map_ext.
        -- apply F.
        -- intros Hn l1 q l2 Hl Hq. unfold questionsOf in *; simpl.
           rewrite questionsOf_answered, Hl, List.map_app; simpl.
           rewrite Hl, List.map_app in Hn; simpl in Hn.
           apply NoDup_app in Hn as (N1 & N2 & N3).
           apply NoDup_cons in N3 as (N3 & N4).
           rewrite (answerIf_same _ _ _ _ Hq), !map_answerIf_others;
             [reflexivity | |].
           ++ rewrite <- Hq. intros H. apply N3.
              now apply list_elem_of_In.
           ++ rewrite <- Hq. intros H. apply (N2 (q_id q)).
              ** now apply list_elem_of_In.
              ** left.
      * exists w. split; [exact Hw |].
        repeat match goal with |- _ /\ _ => split end; try reflexivity.
        -- assert (G : List.map (answerInSection questionId answer correct)
                         (sections w) = sections w).
           { apply hasQuestion_false. exact E. }
           rewrite <- G at 1. apply F.
        -- intros _ l1 q l2 Hl Hq. exfalso.
           assert (H : hasQuestion questionId (sections w) = true).
           { apply hasQuestion_In. fold (questionsOf w). rewrite Hl.
             rewrite List.map_app. apply in_or_app. right. now left. }
           congruence.
Qed.

Lemma updateQuestionAnswer_frame_witness :
  exists w',
    getWorksheet
      (updateQuestionAnswer (js "q6") (Str (js "es")) true
         (saveWorksheet WorksheetUpload.createSampleWorksheet ∅)) = Some w'
    /\ questionsOf w'
       = take 5 (questionsOf WorksheetUpload.createSampleWorksheet)
         ++ withAnswer (Str (js "es")) true sampleBlank
         :: drop 6 (questionsOf WorksheetUpload.createSampleWorksheet).
Proof.
  destruct (updateQuestionAnswer_frame
              (saveWorksheet WorksheetUpload.createSampleWorksheet ∅)
              (js "q6") (Str (js "es")) true) as (_ & _ & H).
  destruct (H WorksheetUpload.createSampleWorksheet eq_refl)
    as (_ & w' & Hw' & _ & _ & _ & _ & _ & Hn).
  exists w'. split; [exact Hw' |].
  apply Hn; [| reflexivity | reflexivity].
  apply (bool_decide_unpack _). vm_compute. exact I.
Defined.

(** ** Ingestion normalisation *)

Lemma processOption_backfilled (i : nat) (p : ProcessWorksheet.ParsedOption) :
  backfilled i (ProcessWorksheet.processOption i p) p.
Proof.
  assert (L : i < 26 ->
              Some (fromCharCode (97 + N.of_nat i))
              = (fun c => [c]) <$> alphabet !! i).
  { intros H. do 26 (destruct i as [| i]; [reflexivity |]). lia. }
  unfold backfilled, ProcessWorksheet.processOption; simpl.
  split; [reflexivity |].
  destruct (ProcessWorksheet.po_id p) as [[| c r] |]; simpl; auto.
Qed.


Lemma processOptions_same
    (ps : option (list ProcessWorksheet.ParsedOption)) :
  sameOptions (option_map (imap ProcessWorksheet.processOption) ps) ps.
Proof.
  destruct ps as [ps |]; simpl; [| exact I].
  split; [apply length_imap |].
  intros i o p Ho Hp. rewrite list_lookup_imap, Hp in Ho.
  injection Ho as <-. apply processOption_backfilled.
Qed.

Lemma mapM_cons {A B} (f : A -> ProcessWorksheet.Gen B) (a : A)
    (r : list A) (n : nat) :
  ProcessWorksheet.mapM f (a :: r) n
  = ((f a n).1 :: (ProcessWorksheet.mapM f r (f a n).2).1,
     (ProcessWorksheet.mapM f r (f a n).2).2).
Proof.
  simpl. unfold ProcessWorksheet.bind, ProcessWorksheet.ret.
  destruct (f a n) as [b n1]; simpl.
  now destruct (ProcessWorksheet.mapM f r n1).
Qed.

Section NormaliseProperties.

Variable uuidv4 : nat -> jsstring.

Lemma processQuestion_eq (q : ProcessWorksheet.ParsedQuestion) (n : nat) :
  ProcessWorksheet.processQuestion uuidv4 q n
  = (mkQuestion (uuidv4 n) (ProcessWorksheet.pq_type q)
       (ProcessWorksheet.pq_text q)
       (option_map (imap ProcessWorksheet.processOption)
          (ProcessWorksheet.pq_options q))
       (ProcessWorksheet.pq_correctAnswer q)
       (ProcessWorksheet.pq_userAnswer q) (ProcessWorksheet.pq_isCorrect q),
     S n).
Proof. reflexivity. Qed.

Lemma processQuestions_spec (qs : list ProcessWorksheet.ParsedQuestion)
    (n : nat) :
  (ProcessWorksheet.mapM (ProcessWorksheet.processQuestion uuidv4) qs n).2
  = n + length qs
  /\ List.map q_id
       (ProcessWorksheet.mapM (ProcessWorksheet.processQuestion uuidv4)
          qs n).1
     = List.map uuidv4 (seq n (length qs))
  /\ Forall2 sameQuestion
       (ProcessWorksheet.mapM (ProcessWorksheet.processQuestion uuidv4)
          qs n).1 qs.
Proof.
  revert n. induction qs as [| q qs IH]; intros n.
  - simpl. repeat split; [lia | constructor].
  - rewrite mapM_cons, processQuestion_eq. simpl.
    destruct (IH (S n)) as (I1 & I2 & I3).
    repeat match goal with |- _ /\ _ => split end.
    + lia.
    + now f_equal.
    + constructor; [| exact I3].
      repeat split. apply processOptions_same.
Qed.

Lemma processSection_eq (s : ProcessWorksheet.ParsedSection) (n : nat) :
  ProcessWorksheet.processSection uuidv4 s n
  = (mkSection (uuidv4 n) (ProcessWorksheet.ps_title s)
       (ProcessWorksheet.ps_instructions s)
       (ProcessWorksheet.mapM (ProcessWorksheet.processQuestion uuidv4)
          (ProcessWorksheet.ps_questions s) (S n)).1,
     S n + length (ProcessWorksheet.ps_questions s)).
Proof.
  unfold ProcessWorksheet.processSection, ProcessWorksheet.bind,
    ProcessWorksheet.fresh, ProcessWorksheet.ret.
  pose proof (processQuestions_spec (ProcessWorksheet.ps_questions s) (S n))
    as (E & _).
  destruct (ProcessWorksheet.mapM _ _ (S n)) as [qs n']. simpl in *.
  now rewrite E.
Qed.

Lemma processSections_spec (ss : list ProcessWorksheet.ParsedSection)
    (n : nat) :
  n <= (ProcessWorksheet.mapM (ProcessWorksheet.processSection uuidv4)
          ss n).2
  /\ flat_map (fun s => s_id s :: List.map q_id (questions s))
       (ProcessWorksheet.mapM (ProcessWorksheet.processSection uuidv4)
          ss n).1
     = List.map uuidv4
         (seq n
            ((ProcessWorksheet.mapM
                (ProcessWorksheet.processSection uuidv4) ss n).2 - n))
  /\ Forall2 sameSection
       (ProcessWorksheet.mapM (ProcessWorksheet.processSection uuidv4)
          ss n).1 ss.
Proof.
  revert n. induction ss as [| s ss IH]; intros n.
  - simpl. rewrite Nat.sub_diag.
    split; [lia |]. split; [reflexivity |]. constructor.
  - rewrite mapM_cons, processSection_eq. simpl.
    destruct (processQuestions_spec (ProcessWorksheet.ps_questions s) (S n))
      as (_ & Q2 & Q3).
    destruct (IH (S (n + length (ProcessWorksheet.ps_questions s))))
      as (I1 & I2 & I3).
    set (m := (ProcessWorksheet.mapM
                 (ProcessWorksheet.processSection uuidv4) ss
                 (S (n + length (ProcessWorksheet.ps_questions s)))).2) in *.
    repeat match goal with |- _ /\ _ => split end.
    + lia.
    + rewrite Q2, I2.
      replace (m - n)
        with (S (length (ProcessWorksheet.ps_questions s))
              + (m - S (n + length (ProcessWorksheet.ps_questions s))))
        by lia.
      rewrite seq_app, List.map_app.
      replace (n + S (length (ProcessWorksheet.ps_questions s)))
        with (S (n + length (ProcessWorksheet.ps_questions s))) by lia.
      reflexivity.
    + constructor; [| exact I3]. repeat split. exact Q3.
Qed.

End NormaliseProperties.

Lemma ingest_eq (uuidv4 : nat -> jsstring)
    (p : ProcessWorksheet.ParsedWorksheet) (n : nat) :
  ingest uuidv4 p n
  = mkWorksheet (uuidv4 n) (ProcessWorksheet.pw_title p)
      (ProcessWorksheet.pw_description p)
      (ProcessWorksheet.mapM (ProcessWorksheet.processSection uuidv4)
         (ProcessWorksheet.pw_sections p) (S n)).1.
Proof.
  unfold ingest, ProcessWorksheet.processedWorksheet, ProcessWorksheet.bind,
    ProcessWorksheet.fresh, ProcessWorksheet.ret.
  now destruct (ProcessWorksheet.mapM _ _ (S n)).
Qed.

Lemma upload_stores_worksheet (f : WorksheetUpload.File) (w : Worksheet)
    (st : Storage) :
  getWorksheet
    (WorksheetUpload.handleSubmit (Some f)
       (WorksheetUpload.Resolved (WorksheetUpload.mkResult (Some w) None)) st)
  = Some w.
Proof. apply getWorksheet_saveWorksheet. Qed.




Lemma sampleUuid_inj (j k : nat) : sampleUuid j = sampleUuid k -> j = k.
Proof.
  unfold sampleUuid. intros H.
  apply (f_equal length) in H. rewrite !length_replicate in H. lia.
Qed.


Example ingest_sample_option_ids :
  (fun q => option_map (List.map opt_id) (options q))
    <$> questionsOf (ingest sampleUuid sampleParsed 0)
  = [Some [js "a"; js "x"; js "c"]; None].
Proof. reflexivity. Qed.

(** ** The answer and its verdict travel together *)

Lemma unanswered_atomic (q : Question) : unanswered q -> answerAtomic q.
Proof.
  unfold unanswered, answerAtomic. intros [-> ->].
  split; intros [x Hx]; discriminate.
Qed.

Lemma withAnswer_atomic (answer : StrOrArr) (correct : bool) (q : Question) :
  answerAtomic (withAnswer answer correct q).
Proof. unfold answerAtomic; simpl. split; intros _; eauto. Qed.

Lemma answerIf_atomic (questionId : jsstring) (answer : StrOrArr)
    (correct : bool) (q : Question) :
  answerAtomic q -> answerAtomic (answerIf questionId answer correct q).
Proof.
  unfold answerIf. destruct (str_eqb (q_id q) questionId);
    [intros _; apply withAnswer_atomic | trivial].
Qed.

Lemma unanswered_worksheetAtomic (w : Worksheet) :
  Forall (fun s => Forall unanswered (questions s)) (sections w) ->
  worksheetAtomic w.
Proof.
  unfold worksheetAtomic. apply List.Forall_impl. intros s.
  apply List.Forall_impl. exact unanswered_atomic.
Qed.

Lemma sameSections_flat (ss : list WorksheetSection)
    (ps : list ProcessWorksheet.ParsedSection) :
  Forall2 sameSection ss ps ->
  Forall2 sameQuestion (flat_map questions ss)
    (flat_map ProcessWorksheet.ps_questions ps).
Proof.
  induction 1 as [| s p ss ps (_ & _ & Q) _ IH]; simpl; [constructor |].
  now apply Forall2_app.
Qed.

Lemma ingest_questions (uuidv4 : nat -> jsstring)
    (p : ProcessWorksheet.ParsedWorksheet) (n : nat) :
  Forall2 sameQuestion (questionsOf (ingest uuidv4 p n)) (replyQuestions p).
Proof.
  unfold questionsOf, replyQuestions. apply sameSections_flat.
  rewrite ingest_eq. simpl. apply processSections_spec.
Qed.

Lemma sameSections_atomic (ss : list WorksheetSection)
    (ps : list ProcessWorksheet.ParsedSection) :
  Forall2 sameSection ss ps ->
  Forall replyAtomic (flat_map ProcessWorksheet.ps_questions ps) ->
  Forall (fun s => Forall answerAtomic (questions s)) ss.
Proof.
  induction 1 as [| s p ss ps (_ & _ & Q) _ IH]; simpl; [constructor |].
  intros H. apply Forall_app in H as [H1 H2].
  constructor; [| now apply IH].
  clear IH H2. induction Q as [| q pq qs pqs (_ & _ & _ & _ & U & C) _ IHq];
    [constructor |].
  apply Forall_cons in H1 as [A H1]. constructor; [| now apply IHq].
  unfold answerAtomic, replyAtomic in *. now rewrite U, C.
Qed.

Lemma ingest_atomic (uuidv4 : nat -> jsstring)
    (p : ProcessWorksheet.ParsedWorksheet) (n : nat) :
  Forall replyAtomic (replyQuestions p) -> worksheetAtomic (ingest uuidv4 p n).
Proof.
  unfold worksheetAtomic, replyQuestions. apply sameSections_atomic.
  rewrite ingest_eq. simpl. apply processSections_spec.
Qed.

Lemma sample_unanswered :
  Forall (fun s => Forall unanswered (questions s))
    (sections WorksheetUpload.createSampleWorksheet).
Proof. repeat constructor. Qed.

Lemma flat_Forall {A B} (P : B -> Prop) (f : A -> list B) (l : list A) :
  Forall (fun a => Forall P (f a)) l -> Forall P (flat_map f l).
Proof.
  induction 1 as [| a l H _ IH]; simpl; [constructor |].
  apply Forall_app. now split.
Qed.

Lemma storeAtomic_save (w : Worksheet) (st : Storage) :
  worksheetAtomic w -> storeAtomic (saveWorksheet w st).
Proof.
  intros H w'. rewrite getWorksheet_saveWorksheet. now intros [= <-].
Qed.

Lemma storeAtomic_same (st st' : Storage) :
  getWorksheet st' = getWorksheet st -> storeAtomic st -> storeAtomic st'.
Proof. unfold storeAtomic. now intros ->. Qed.

Lemma storeAtomic_clear (st : Storage) : storeAtomic (clearStorage st).
Proof.
  intros w. destruct (clearStorage_getters st) as [-> _]. discriminate.
Qed.

Lemma getWorksheet_setItem (k : string) (v : item) (st : Storage) :
  k <> WORKSHEET_KEY -> getWorksheet (setItem k v st) = getWorksheet st.
Proof.
  intros H. unfold getWorksheet, getItem, setItem.
  now rewrite lookup_insert_ne.
Qed.

Lemma storeAtomic_update (questionId : jsstring) (answer : StrOrArr)
    (correct : bool) (st : Storage) :
  storeAtomic st ->
  storeAtomic (updateQuestionAnswer questionId answer correct st).
Proof.
  intros H. rewrite updateQuestionAnswer_eq.
  destruct (getWorksheet st) as [w |] eqn:Hw; [| exact H].
  destruct (hasQuestion questionId (sections w)); [| exact H].
  apply storeAtomic_save. specialize (H w Hw).
  unfold worksheetAtomic in *; simpl.
  induction H as [| s ss Hs _ IH]; simpl; constructor; [| exact IH].
  simpl. induction Hs as [| q qs Hq _ IHq]; simpl; constructor;
    [now apply answerIf_atomic | exact IHq].
Qed.

Lemma step_storeAtomic `{Engine} (st st' : Storage) :
  storeAtomic st -> step atomicReply st st' -> storeAtomic st'.
Proof.
  intros H0 S. destruct S as [nm ts st | file o st Ho | st | q cs st
                             | qid a c st | ps st | ps st | st].
  - unfold StudentForm.handleSubmit.
    destruct (truthy (trim nm)); [| exact H0].
    apply (storeAtomic_same st); [| exact H0].
    now apply getWorksheet_setItem.
  - unfold WorksheetUpload.handleSubmit.
    destruct file as [f |]; simpl; [| exact H0].
    destruct o as [r |]; simpl in *; [| apply storeAtomic_clear].
    destruct (WorksheetUpload.isFailure r); [apply storeAtomic_clear |].
    destruct (WorksheetUpload.r_worksheet r) as [w |];
      [| apply storeAtomic_clear].
    now apply storeAtomic_save.
  - apply storeAtomic_save, unanswered_worksheetAtomic, sample_unanswered.
  - unfold QuestionComponent.onClickSubmit.
    destruct (QuestionComponent.clickSubmit q cs); [| exact H0].
    unfold QuestionComponent.handleSubmit.
    destruct (QuestionComponent.evaluate q cs) as [a c]. simpl.
    now apply storeAtomic_update.
  - now apply storeAtomic_update.
  - unfold WorksheetPage.handleNextQuestion.
    destruct (_ <? _)%Z; simpl;
      (apply (storeAtomic_same st); [| exact H0]);
      now apply getWorksheet_setItem.
  - simpl. apply (storeAtomic_same st); [| exact H0].
    now apply getWorksheet_setItem.
  - apply storeAtomic_clear.
Qed.

(** C7, the claim as stated fails: a reply whose question comes with an
    answer and no verdict is normalised with that answer kept and is
    stored as it is, so a store reachable from the empty session holds a
    question with exactly one of the two fields. *)
Lemma unchecked_reply_breaks_atomicity :
  @reachable latinEngine anyReply halfAnsweredStore
  /\ (exists q,
        getAllQuestions halfAnsweredStore = [q]
        /\ userAnswer q = Some (Str (js "green"))
        /\ isCorrect q = None)
  /\ ~ storeAtomic halfAnsweredStore.
Proof.
  split; [| split].
  - unfold reachable, halfAnsweredStore.
    eapply rtc_r; [apply rtc_refl |]. now apply step_upload.
  - eexists. vm_compute. repeat split.
  - intros A.
    specialize (A (ingest sampleUuid halfAnsweredReply 0) eq_refl).
    apply Forall_cons in A as (A & _). apply Forall_cons in A as ((A & _) & _).
    destruct A as [x Hx]; [now eexists | discriminate Hx].
Qed.

(** C7, amended. The sample worksheet comes in with neither field on any
    question; normalisation copies the two fields of each reply question
    as they are, so a reply whose questions carry both fields or neither,
    as in the requested format, gives a worksheet with the fields
    together; recording an answer puts both fields on the question in one
    replacement; every handler then keeps them together, provided the
    worksheets that uploads store have them together, and so does every
    store reachable from the empty session under that proviso. *)
Theorem answer_and_verdict_together `{Engine} :
  Forall unanswered (questionsOf WorksheetUpload.createSampleWorksheet)
  /\ (forall uuidv4 p n,
        Forall2 sameQuestion (questionsOf (ingest uuidv4 p n))
          (replyQuestions p))
  /\ (forall uuidv4 p n,
        Forall replyAtomic (replyQuestions p) ->
        worksheetAtomic (ingest uuidv4 p n))
  /\ (forall answer correct q,
        is_Some (userAnswer (withAnswer answer correct q))
        /\ is_Some (isCorrect (withAnswer answer correct q)))
  /\ (forall st st',
        storeAtomic st -> step atomicReply st st' -> storeAtomic st')
  /\ (forall st, reachable atomicReply st -> storeAtomic st)
  /\ (forall st w, reachable atomicReply st -> getWorksheet st = Some w ->
        Forall answerAtomic (questionsOf w)).
Proof.
  assert (R : forall st, reachable atomicReply st -> storeAtomic st).
  { unfold reachable. apply rtc_ind_r.
    - intros w. unfold getWorksheet, getItem.
      rewrite lookup_empty. discriminate.
    - intros y z _ S IH. eapply step_storeAtomic; eassumption. }
  repeat match goal with |- _ /\ _ => split end.
  - apply flat_Forall, sample_unanswered.
  - apply ingest_questions.
  - apply ingest_atomic.
  - intros answer correct q. simpl. split; eauto.
  - intros st st'. apply step_storeAtomic.
  - exact R.
  - intros st w Hr Hw. apply flat_Forall. exact (R st Hr w Hw).
Qed.

Lemma answer_and_verdict_together_witness :
  storeAtomic
    (updateQuestionAnswer (js "q6") (Str (js "es")) true
       (WorksheetUpload.handleDemoClick ∅)).
Proof.
  destruct (@answer_and_verdict_together latinEngine)
    as (_ & _ & _ & _ & _ & H & _).
  apply H. unfold reachable.
  eapply rtc_r; [eapply rtc_r; [apply rtc_refl | apply step_demo] |].
  apply step_update.
Defined.

(** ** Worked examples on the sample worksheet *)

Example trim_example : trim (js "  Answer  ") = js "Answer".
Proof. reflexivity. Qed.

Example trim_blank_example : trim (js "   ") = [].
Proof. reflexivity. Qed.

Example toLowerCase_example `{Engine} :
  lowersLatin1 -> toLowerCase (js "ES") = js "es".
Proof. intros L. lower_latin L. reflexivity. Qed.

Example natToString_example : natToString 10 = js "10".
Proof. reflexivity. Qed.

Example choice_example `{Engine} :
  QuestionComponent.evaluate
    (WorksheetUpload.matchingQuestion "q1" "It is my turn." "b")
    (QuestionComponent.mkState (js "b") [] false false)
  = (Str (js "b"), true)
  /\ QuestionComponent.evaluate
       (WorksheetUpload.matchingQuestion "q1" "It is my turn." "b")
       (QuestionComponent.mkState (js "B") [] false false)
     = (Str (js "B"), false).
Proof. split; reflexivity. Qed.

Example wrong_blank_example `{Engine} :
  lowersLatin1 ->
  evaluateText sampleBlank (js "no") = (Str (js "no"), false)
  /\ PdfService.correctAnswerHTML
       (PdfService.renderQuestion 0
          (withAnswer (Str (js "no")) false sampleBlank))
     = Some (js "<strong>Correct answer:</strong> Es")
  /\ PdfService.correctAnswerHTML
       (PdfService.renderQuestion 0
          (withAnswer (Str (js "ES")) true sampleBlank))
     = None.
Proof.
  intros L. repeat match goal with |- _ /\ _ => split end;
    try reflexivity.
  unfold evaluateText, QuestionComponent.evaluate. simpl.
  lower_latin L. reflexivity.
Qed.

Example half_answered_example :
  getCompletedQuestionsCount
    (updateQuestionAnswer (js "q5") (Str (js "a")) true
       (updateQuestionAnswer (js "q4") (Str (js "e")) true
          (updateQuestionAnswer (js "q3") (Str (js "a")) false
             (updateQuestionAnswer (js "q2") (Str (js "c")) true
                (updateQuestionAnswer (js "q1") (Str (js "b")) true
                   (WorksheetUpload.handleDemoClick ∅))))))
  = 5.
Proof. vm_compute. reflexivity. Qed.


(** * Further properties of the code *)

(** ** Session store *)

Lemma getItem_setItem (k k' : string) (v : item) (st : Storage) :
  getItem k' (setItem k v st) = if decide (k = k') then Some v else getItem k' st.
Proof. unfold getItem, setItem. apply lookup_insert. Qed.

(** [parseInt] reads back what [toString] wrote for an index. *)
Lemma parseDigits_uint (d : Decimal.uint) (acc : nat) :
  parseDigits (js (NilEmpty.string_of_uint d)) (Some acc)
  = Some (Nat.of_uint_acc d acc).
Proof.
  revert acc. induction d as [| d IH | d IH | d IH | d IH | d IH | d IH
                             | d IH | d IH | d IH | d IH];
    intros acc; [reflexivity | ..];
    (etransitivity; [exact (IH _) |]);
    cbn [Nat.of_uint_acc]; rewrite Nat.tail_mul_spec; do 2 f_equal;
    try (apply f_equal); vm_compute N.to_nat; lia.
Qed.

Lemma to_uint_nonnil (n : nat) : Nat.to_uint n <> Decimal.Nil.
Proof.
  rewrite <- (Unsigned.of_to n) at 1. rewrite Unsigned.to_of.
  apply unorm_nonnil.
Qed.

Lemma parseInt_natToString (n : nat) :
  parseInt (natToString n) = Some (Z.of_nat n).
Proof.
  unfold natToString. rewrite <- (Unsigned.of_to n) at 2.
  pose proof (to_uint_nonnil n) as Hn.
  destruct (Nat.to_uint n) as [| d | d | d | d | d | d | d | d | d | d];
    [congruence | ..];
    (etransitivity;
     [exact (f_equal (fmap Z.of_nat) (parseDigits_uint d _)) | reflexivity]).
Qed.

Lemma truthy_natToString (n : nat) : truthy (natToString n) = true.
Proof.
  unfold natToString. pose proof (to_uint_nonnil n) as Hn.
  destruct (Nat.to_uint n); [congruence | ..]; reflexivity.
Qed.

Lemma getCurrentQuestionIndex_save (i : nat) (st : Storage) :
  getCurrentQuestionIndex (saveCurrentQuestionIndex i st) = i.
Proof.
  unfold getCurrentQuestionIndex, saveCurrentQuestionIndex.
  rewrite getItem_setItem. simpl.
  rewrite truthy_natToString, parseInt_natToString. apply Nat2Z.id.
Qed.

Lemma slots_read_back (st : Storage) (w : Worksheet) (i : nat)
    (info : StudentInfo) (b : bool) :
  (getWorksheet (saveWorksheet w st) = Some w
   /\ getCurrentQuestionIndex (saveWorksheet w st) = getCurrentQuestionIndex st
   /\ getStudentInfo (saveWorksheet w st) = getStudentInfo st
   /\ isCompleted (saveWorksheet w st) = isCompleted st)
  /\ (getCurrentQuestionIndex (saveCurrentQuestionIndex i st) = i
      /\ getWorksheet (saveCurrentQuestionIndex i st) = getWorksheet st
      /\ getStudentInfo (saveCurrentQuestionIndex i st) = getStudentInfo st
      /\ isCompleted (saveCurrentQuestionIndex i st) = isCompleted st)
  /\ (getStudentInfo (saveStudentInfo info st) = Some info
      /\ getWorksheet (saveStudentInfo info st) = getWorksheet st
      /\ getCurrentQuestionIndex (saveStudentInfo info st)
         = getCurrentQuestionIndex st
      /\ isCompleted (saveStudentInfo info st) = isCompleted st)
  /\ (isCompleted (markAsCompleted b st) = b
      /\ getWorksheet (markAsCompleted b st) = getWorksheet st
      /\ getCurrentQuestionIndex (markAsCompleted b st)
         = getCurrentQuestionIndex st
      /\ getStudentInfo (markAsCompleted b st) = getStudentInfo st).
Proof.
  repeat match goal with |- _ /\ _ => split end;
    try apply getCurrentQuestionIndex_save;
    unfold getWorksheet, getCurrentQuestionIndex, getStudentInfo, isCompleted,
      saveWorksheet, saveCurrentQuestionIndex, saveStudentInfo,
      markAsCompleted;
    rewrite !getItem_setItem; repeat case_decide; done.
Qed.

(** X1. Each of the four save operations is read back by its getter, and
    leaves what the other three getters return untouched.  The index is
    written as decimal text and read back with [parseInt]: the text of a
    safe integer, one below 2^53, is its digits, and their value is the
    index again. *)
Theorem storage_slots_independent (st : Storage) (w : Worksheet) (i : nat)
    (info : StudentInfo) (b : bool) (Hi : (N.of_nat i < 2 ^ 53)%N) :
  (getWorksheet (saveWorksheet w st) = Some w
   /\ getCurrentQuestionIndex (saveWorksheet w st) = getCurrentQuestionIndex st
   /\ getStudentInfo (saveWorksheet w st) = getStudentInfo st
   /\ isCompleted (saveWorksheet w st) = isCompleted st)
  /\ (parseInt (natToString i) = Some (Z.of_nat i)
      /\ getCurrentQuestionIndex (saveCurrentQuestionIndex i st) = i
      /\ getWorksheet (saveCurrentQuestionIndex i st) = getWorksheet st
      /\ getStudentInfo (saveCurrentQuestionIndex i st) = getStudentInfo st
      /\ isCompleted (saveCurrentQuestionIndex i st) = isCompleted st)
  /\ (getStudentInfo (saveStudentInfo info st) = Some info
      /\ getWorksheet (saveStudentInfo info st) = getWorksheet st
      /\ getCurrentQuestionIndex (saveStudentInfo info st)
         = getCurrentQuestionIndex st
      /\ isCompleted (saveStudentInfo info st) = isCompleted st)
  /\ (isCompleted (markAsCompleted b st) = b
      /\ getWorksheet (markAsCompleted b st) = getWorksheet st
      /\ getCurrentQuestionIndex (markAsCompleted b st)
         = getCurrentQuestionIndex st
      /\ getStudentInfo (markAsCompleted b st) = getStudentInfo st).
Proof.
  repeat match goal with |- _ /\ _ => split end;
    try apply parseInt_natToString;
    try apply getCurrentQuestionIndex_save;
    unfold getWorksheet, getCurrentQuestionIndex, getStudentInfo, isCompleted,
      saveWorksheet, saveCurrentQuestionIndex, saveStudentInfo,
      markAsCompleted, getItem, setItem;
    first [ now rewrite lookup_insert_eq
          | now rewrite lookup_insert_ne ].
Qed.

Lemma storage_slots_independent_witness :
  getCurrentQuestionIndex (saveCurrentQuestionIndex 9 ∅) = 9
  /\ getWorksheet (saveCurrentQuestionIndex 9 ∅) = None.
Proof.
  assert (Hi : (N.of_nat 9 < 2 ^ 53)%N) by (vm_compute; reflexivity).
  destruct (storage_slots_independent ∅ WorksheetUpload.createSampleWorksheet
              9 someStudent true Hi) as (_ & (_ & H1 & H2 & _) & _).
  split; [exact H1 | exact H2].
Defined.

(** X2. The two counters that fold over the sections agree with the
    flattened question list: the total is its length, and the number of
    completed questions is the number of its members with a stored
    answer. *)
Theorem counts_follow_getAllQuestions (st : Storage) :
  getTotalQuestionsCount st = length (getAllQuestions st)
  /\ getCompletedQuestionsCount st
     = length (List.filter answered (getAllQuestions st))
  /\ getCorrectAnswersCount st
     = length (List.filter isCorrectTruthy (getAllQuestions st)).
Proof.
  unfold getCorrectAnswersCount, getTotalQuestionsCount,
    getCompletedQuestionsCount, getAllQuestions.
  destruct (getWorksheet st) as [w |]; [| repeat split].
  split; [| split; [| reflexivity]].
  - rewrite fold_left_add_flat. reflexivity.
  - rewrite (filter_flat_map answered questions).
    rewrite (fold_left_add_flat
               (fun s => List.filter answered (questions s))).
    reflexivity.
Qed.

Lemma filter_length_mono {A} (p q : A -> bool) (l : list A) :
  Forall (fun x => p x = true -> q x = true) l ->
  length (List.filter p l) <= length (List.filter q l).
Proof.
  induction 1 as [| x l H _ IH]; simpl; [lia |].
  destruct (p x); [rewrite H by reflexivity; simpl; lia |].
  destruct (q x); simpl; lia.
Qed.

Lemma storeAtomic_getAllQuestions (st : Storage) :
  storeAtomic st -> Forall answerAtomic (getAllQuestions st).
Proof.
  intros H. unfold getAllQuestions.
  destruct (getWorksheet st) as [w |] eqn:Hw; [| constructor].
  apply flat_Forall. exact (H w Hw).
Qed.

Lemma reachable_atomic `{Engine} (st : Storage) :
  reachable atomicReply st -> storeAtomic st.
Proof.
  unfold reachable. apply rtc_ind_r.
  - intros w. unfold getWorksheet, getItem. now rewrite lookup_empty.
  - intros y z _ S IH. eapply step_storeAtomic; eassumption.
Qed.

(** X3. Never more questions are completed, or correct, than there are.
    In a store where answers and verdicts go together a correct question
    is a completed one, so the correct count is at most the completed
    count; that is the case in every store reached through handlers whose
    uploads bring worksheets with the two fields together.  Without that
    proviso it fails: a reply that marks its question correct and gives no
    answer is stored as it comes, and then one question is correct and
    none is completed. *)
Theorem counts_are_ordered `{Engine} (st : Storage) :
  getCompletedQuestionsCount st <= getTotalQuestionsCount st
  /\ getCorrectAnswersCount st <= getTotalQuestionsCount st
  /\ (storeAtomic st ->
      getCorrectAnswersCount st <= getCompletedQuestionsCount st)
  /\ (reachable atomicReply st ->
      getCorrectAnswersCount st <= getCompletedQuestionsCount st)
  /\ (reachable anyReply markedCorrectStore
      /\ getCorrectAnswersCount markedCorrectStore = 1
      /\ getCompletedQuestionsCount markedCorrectStore = 0).
Proof.
  destruct (counts_as_lengths st) as (-> & -> & ->).
  assert (A : storeAtomic st ->
              length (List.filter isCorrectTruthy (getAllQuestions st))
              <= length (List.filter answered (getAllQuestions st))).
  { intros H0. apply filter_length_mono.
    eapply List.Forall_impl; [| exact (storeAtomic_getAllQuestions st H0)].
    intros q Hq Hc. apply isCorrectTruthy_true in Hc.
    unfold answered. apply bool_decide_eq_true, Hq. rewrite Hc. eauto. }
  split; [apply List.filter_length_le |].
  split; [apply List.filter_length_le |].
  split; [exact A |].
  split; [intros Hr; apply A; now apply reachable_atomic |].
  split; [| split; vm_compute; reflexivity].
  unfold reachable, markedCorrectStore.
  eapply rtc_r; [apply rtc_refl |]. now apply step_upload.
Qed.

Lemma counts_are_ordered_witness :
  getCorrectAnswersCount
    (updateQuestionAnswer (js "q6") (Str (js "no")) false
       (WorksheetUpload.handleDemoClick ∅))
  <= getCompletedQuestionsCount
       (updateQuestionAnswer (js "q6") (Str (js "no")) false
          (WorksheetUpload.handleDemoClick ∅)).
Proof.
  destruct (@counts_are_ordered latinEngine
              (updateQuestionAnswer (js "q6") (Str (js "no")) false
                 (WorksheetUpload.handleDemoClick ∅)))
    as (_ & _ & _ & H & _).
  apply H. unfold reachable.
  eapply rtc_r; [eapply rtc_r; [apply rtc_refl | apply step_demo] |].
  apply step_update.
Defined.

Lemma getAllQuestions_update (questionId : jsstring) (answer : StrOrArr)
    (correct : bool) (st : Storage) :
  getAllQuestions (updateQuestionAnswer questionId answer correct st)
  = List.map (answerIf questionId answer correct) (getAllQuestions st).
Proof.
  rewrite updateQuestionAnswer_eq. unfold getAllQuestions.
  destruct (getWorksheet st) as [w |] eqn:Hw; [| now rewrite Hw].
  destruct (hasQuestion questionId (sections w)) eqn:E.
  - rewrite getWorksheet_saveWorksheet. simpl. apply questionsOf_answered.
  - rewrite Hw. symmetry. apply map_answerIf_others.
    intros H. apply hasQuestion_In in H. congruence.
Qed.

(** X4. [updateQuestionAnswer] answers every question that carries the
    given id, not just the first: the flattened list afterwards is the
    list before with each such question replaced by its answered copy,
    and all the others are kept, in place. *)
Theorem updateQuestionAnswer_answers_every_match (st : Storage)
    (questionId : jsstring) (answer : StrOrArr) (correct : bool) :
  getAllQuestions (updateQuestionAnswer questionId answer correct st)
  = List.map (answerIf questionId answer correct) (getAllQuestions st)
  /\ (forall q',
        In q' (getAllQuestions
                 (updateQuestionAnswer questionId answer correct st)) ->
        q_id q' = questionId ->
        userAnswer q' = Some answer /\ isCorrect q' = Some correct)
  /\ (forall i q,
        getAllQuestions st !! i = Some q -> q_id q <> questionId ->
        getAllQuestions (updateQuestionAnswer questionId answer correct st)
          !! i = Some q).
Proof.
  rewrite getAllQuestions_update. split; [reflexivity |]. split.
  - intros q' Hin Hid. apply in_map_iff in Hin as (q & <- & _).
    rewrite answerIf_id in Hid. rewrite (answerIf_same _ _ _ _ Hid).
    split; reflexivity.
  - intros i q Hq Hid.
    change (List.map (answerIf questionId answer correct) (getAllQuestions st))
      with (answerIf questionId answer correct <$> getAllQuestions st).
    rewrite list_lookup_fmap, Hq. simpl. f_equal.
    now apply answerIf_other.
Qed.

Lemma updateQuestionAnswer_answers_every_match_witness :
  userAnswer (withAnswer (Str (js "es")) true sampleBlank)
  = Some (Str (js "es"))
  /\ isCorrect (withAnswer (Str (js "es")) true sampleBlank) = Some true.
Proof.
  destruct (updateQuestionAnswer_answers_every_match
              (saveWorksheet WorksheetUpload.createSampleWorksheet ∅)
              (js "q6") (Str (js "es")) true) as (_ & H & _).
  apply H; [| reflexivity].
  vm_compute. do 5 right. left. reflexivity.
Defined.

Lemma filter_length_map_mono {A} (p : A -> bool) (f : A -> A) (l : list A) :
  (forall x, p x = true -> p (f x) = true) ->
  length (List.filter p l) <= length (List.filter p (List.map f l)).
Proof.
  intros H. induction l as [| x l IH]; simpl; [lia |].
  destruct (p x) eqn:E; [rewrite (H x E); simpl; lia |].
  destruct (p (f x)); simpl; lia.
Qed.

Lemma answered_answerIf (questionId : jsstring) (answer : StrOrArr)
    (correct : bool) (q : Question) :
  answered q = true -> answered (answerIf questionId answer correct q) = true.
Proof.
  unfold answerIf. now destruct (str_eqb (q_id q) questionId).
Qed.

Lemma map_answerIf_unique (questionId : jsstring) (answer : StrOrArr)
    (correct : bool) (l1 l2 : list Question) (q : Question) :
  NoDup (List.map q_id (l1 ++ q :: l2)) -> q_id q = questionId ->
  List.map (answerIf questionId answer correct) (l1 ++ q :: l2)
  = l1 ++ withAnswer answer correct q :: l2.
Proof.
  intros Hn Hq. rewrite List.map_app in *. simpl in *.
  apply NoDup_app in Hn as (_ & N2 & N3).
  apply NoDup_cons in N3 as (N3 & _).
  rewrite (answerIf_same _ _ _ _ Hq), !map_answerIf_others; [reflexivity | |].
  - rewrite <- Hq. intros H. apply N3. now apply list_elem_of_In.
  - rewrite <- Hq. intros H. apply (N2 (q_id q)).
    + now apply list_elem_of_In.
    + left.
Qed.

(** X5. Recording an answer never changes the number of questions and
    never lowers the number of completed ones; when ids are unique it
    raises the completed count by one if the question had no answer yet
    and leaves it as it is on a re-answer. *)
Theorem answering_moves_completed_count (st : Storage)
    (questionId : jsstring) (answer : StrOrArr) (correct : bool) :
  getTotalQuestionsCount (updateQuestionAnswer questionId answer correct st)
  = getTotalQuestionsCount st
  /\ getCompletedQuestionsCount st
     <= getCompletedQuestionsCount
          (updateQuestionAnswer questionId answer correct st)
  /\ (forall l1 q l2,
        getAllQuestions st = l1 ++ q :: l2 ->
        NoDup (List.map q_id (getAllQuestions st)) ->
        q_id q = questionId ->
        getCompletedQuestionsCount
          (updateQuestionAnswer questionId answer correct st)
        = getCompletedQuestionsCount st + (if answered q then 0 else 1)).
Proof.
  destruct (counts_as_lengths st) as (-> & -> & _).
  destruct (counts_as_lengths
              (updateQuestionAnswer questionId answer correct st))
    as (-> & -> & _).
  rewrite getAllQuestions_update.
  split; [apply length_map |].
  split; [apply filter_length_map_mono, answered_answerIf |].
  intros l1 q l2 Hl Hn Hq. rewrite Hl in *.
  rewrite (map_answerIf_unique _ _ _ _ _ _ Hn Hq).
  rewrite !List.filter_app, !List.length_app. simpl.
  change (answered (withAnswer answer correct q)) with true.
  destruct (answered q); simpl; lia.
Qed.

Lemma answering_moves_completed_count_witness :
  getCompletedQuestionsCount
    (updateQuestionAnswer (js "q6") (Str (js "es")) true
       (saveWorksheet WorksheetUpload.createSampleWorksheet ∅))
  = getCompletedQuestionsCount
      (saveWorksheet WorksheetUpload.createSampleWorksheet ∅) + 1.
Proof.
  destruct (answering_moves_completed_count
              (saveWorksheet WorksheetUpload.createSampleWorksheet ∅)
              (js "q6") (Str (js "es")) true) as (_ & _ & H).
  apply (H (take 5 (questionsOf WorksheetUpload.createSampleWorksheet))
           sampleBlank
           (drop 6 (questionsOf WorksheetUpload.createSampleWorksheet)));
    [reflexivity | | reflexivity].
  apply (bool_decide_unpack _). vm_compute. exact I.
Defined.

Lemma clearStorage_lookup_any (st : Storage) (k : string) :
  clearStorage st !! k
  = if bool_decide (In k ownKeys) then None else st !! k.
Proof.
  unfold clearStorage, removeItem, ownKeys. rewrite !lookup_delete.
  case_bool_decide as Hk; simpl in Hk.
  - destruct Hk as [<- | [<- | [<- | [<- | []]]]]; repeat case_decide; done.
  - repeat case_decide; try reflexivity; exfalso; apply Hk; subst; tauto.
Qed.

(** X6. [clearStorage] removes the four keys of the application and
    nothing else; a second call changes nothing; afterwards no question
    is listed and all three counters read 0; and a session that held the
    application's keys only is empty. *)
Theorem clearStorage_removes_own_keys_only (st : Storage) :
  (forall k, In k ownKeys -> clearStorage st !! k = None)
  /\ (forall k, ~ In k ownKeys -> clearStorage st !! k = st !! k)
  /\ clearStorage (clearStorage st) = clearStorage st
  /\ (getAllQuestions (clearStorage st) = []
      /\ getTotalQuestionsCount (clearStorage st) = 0
      /\ getCompletedQuestionsCount (clearStorage st) = 0
      /\ getCorrectAnswersCount (clearStorage st) = 0)
  /\ ((forall k, is_Some (st !! k) -> In k ownKeys) -> clearStorage st = ∅).
Proof.
  split; [| split; [| split; [| split]]].
  - intros k Hk. rewrite clearStorage_lookup_any. now rewrite bool_decide_eq_true_2.
  - intros k Hk. rewrite clearStorage_lookup_any. now rewrite bool_decide_eq_false_2.
  - apply map_eq. intros k. rewrite !clearStorage_lookup_any.
    now case_bool_decide.
  - destruct (clearStorage_getters st) as (E & _).
    unfold getCorrectAnswersCount, getAllQuestions, getTotalQuestionsCount,
      getCompletedQuestionsCount.
    rewrite E. repeat split.
  - intros H. apply map_eq. intros k.
    rewrite clearStorage_lookup_any, lookup_empty.
    case_bool_decide as Hk; [reflexivity |].
    destruct (st !! k) eqn:E; [| reflexivity].
    exfalso. apply Hk, H. rewrite E. eauto.
Qed.

Lemma clearStorage_removes_own_keys_only_witness :
  clearStorage sampleStore = ∅.
Proof.
  destruct (clearStorage_removes_own_keys_only sampleStore)
    as (_ & _ & _ & _ & H).
  apply H. intros k [v Hv]. unfold sampleStore, saveStudentInfo,
    saveWorksheet, setItem in Hv.
  rewrite !lookup_insert in Hv. unfold ownKeys.
  repeat case_decide; subst; simpl; try tauto.
  rewrite lookup_empty in Hv. discriminate.
Defined.

(** ** Answer evaluation and the question component *)

(** X7. For a multiple-choice or matching question the stored answer is
    the selected option id and the verdict is exact, case-sensitive
    equality with a single correct answer; an array of correct answers is
    never matched; what is typed in the text field plays no part. *)
Theorem choice_evaluation_is_exact `{Engine} (q : Question)
    (cs : QuestionComponent.state) (Hq : isChoiceQuestion q) :
  (QuestionComponent.evaluate q cs).1
  = Str (QuestionComponent.selectedOption cs)
  /\ ((QuestionComponent.evaluate q cs).2 = true <->
      correctAnswer q = Str (QuestionComponent.selectedOption cs))
  /\ (forall l, correctAnswer q = Arr l ->
      (QuestionComponent.evaluate q cs).2 = false)
  /\ (forall t b1 b2,
      QuestionComponent.evaluate q
        (QuestionComponent.mkState (QuestionComponent.selectedOption cs)
           t b1 b2)
      = QuestionComponent.evaluate q cs).
Proof.
  assert (E : forall cs',
             QuestionComponent.evaluate q cs'
             = (Str (QuestionComponent.selectedOption cs'),
                QuestionComponent.strictEq
                  (QuestionComponent.selectedOption cs') (correctAnswer q))).
  { intros cs'. unfold QuestionComponent.evaluate.
    destruct Hq as [-> | ->]; reflexivity. }
  rewrite E. simpl. split; [reflexivity |]. split; [| split].
  - unfold QuestionComponent.strictEq.
    destruct (correctAnswer q) as [c | l].
    + rewrite str_eqb_true. split; [now intros -> | now intros [= ->]].
    + split; discriminate.
  - now intros l ->.
  - intros t b1 b2. now rewrite E.
Qed.

Lemma choice_evaluation_is_exact_witness :
  (@QuestionComponent.evaluate latinEngine
     (WorksheetUpload.matchingQuestion "q1" "It is my turn." "b")
     (QuestionComponent.mkState (js "b") [] false false)).2 = true.
Proof.
  destruct (@choice_evaluation_is_exact latinEngine
              (WorksheetUpload.matchingQuestion "q1" "It is my turn." "b")
              (QuestionComponent.mkState (js "b") [] false false)
              (or_intror eq_refl)) as (_ & H & _).
  apply H. reflexivity.
Defined.

Lemma trimStart_ws (pre s : jsstring) :
  allWhiteSpace pre -> trimStart (pre ++ s) = trimStart s.
Proof.
  induction 1 as [| c pre Hc _ IH]; simpl; [reflexivity |].
  now rewrite Hc.
Qed.

Lemma trimStart_all_ws (s : jsstring) : allWhiteSpace s -> trimStart s = [].
Proof.
  intros H. rewrite <- (app_nil_r s). now rewrite trimStart_ws.
Qed.

Lemma trimStart_app (s t : jsstring) :
  trimStart (s ++ t)
  = match trimStart s with
    | [] => trimStart t
    | _ :: _ => trimStart s ++ t
    end.
Proof.
  induction s as [| c s IH]; simpl; [now destruct (trimStart t) |].
  now destruct (isWhiteSpace c).
Qed.

Lemma trimEnd_ws (s post : jsstring) :
  allWhiteSpace post -> trimEnd (s ++ post) = trimEnd s.
Proof.
  intros H. unfold trimEnd. rewrite reverse_app, trimStart_ws; [reflexivity |].
  now apply Forall_reverse.
Qed.

Lemma trimEnd_nil : trimEnd [] = [].
Proof. reflexivity. Qed.

Lemma trim_pad (pre s post : jsstring) :
  allWhiteSpace pre -> allWhiteSpace post -> trim (pre ++ s ++ post) = trim s.
Proof.
  intros Hpre Hpost. unfold trim.
  rewrite trimStart_ws by assumption. rewrite trimStart_app.
  destruct (trimStart s) as [| c r].
  - now rewrite trimStart_all_ws.
  - now apply trimEnd_ws.
Qed.

Lemma trimStart_fix (s : jsstring) :
  (forall c, head s = Some c -> isWhiteSpace c = false) -> trimStart s = s.
Proof.
  destruct s as [| c s]; simpl; [reflexivity |].
  intros H. now rewrite (H c eq_refl).
Qed.

Lemma trim_fix (t : jsstring) :
  (forall c, head t = Some c -> isWhiteSpace c = false) ->
  (forall c, last t = Some c -> isWhiteSpace c = false) ->
  trim t = t.
Proof.
  intros Hh Hl. unfold trim, trimEnd.
  rewrite (trimStart_fix t Hh), trimStart_fix; [apply reverse_involutive |].
  intros c. rewrite head_reverse. apply Hl.
Qed.

(** X8. [trim] is characterised by what it strips: whenever a string is
    white space, then [t], then white space, with [t] neither starting
    nor ending in white space, its trim is [t].  So trimming twice is
    trimming once, and the trim is empty exactly for strings of white
    space only. *)
Theorem trim_is_the_trimmed_string (s : jsstring) :
  (forall t, trimmedOf s t -> trim s = t)
  /\ trim (trim s) = trim s
  /\ (trim s = [] <-> allWhiteSpace s).
Proof.
  assert (U : forall s' t, trimmedOf s' t -> trim s' = t).
  { intros s' t (pre & post & -> & Hpre & Hpost & Hh & Hl).
    rewrite trim_pad by assumption. now apply trim_fix. }
  split; [apply U |]. split.
  - destruct (trim_spec s) as (pre & post & _ & _ & _ & Hh & Hl).
    now apply trim_fix.
  - split.
    + intros E. destruct (trim_spec s) as (pre & post & -> & Hpre & Hpost & _).
      rewrite E. simpl. now apply Forall_app.
    + intros H. unfold trim. now rewrite trimStart_all_ws.
Qed.

Lemma trim_is_the_trimmed_string_witness : trim (js "  Es ") = js "Es".
Proof.
  destruct (trim_is_the_trimmed_string (js "  Es ")) as (H & _).
  apply H. exists (js "  "), (js " ").
  split; [reflexivity |]. split; [repeat constructor |].
  split; [repeat constructor |].
  split; intros c [= <-]; reflexivity.
Defined.

(** X9. The verdict on a typed answer depends only on its trimmed,
    case-folded text: white space around the submission changes neither
    the stored answer nor the verdict, and two submissions that the
    engine folds to the same text after trimming get the same verdict,
    whatever their script.  On Latin-1 text, where the case tables are
    written out, these are the submissions that agree letter by letter up
    to case. *)
Theorem text_verdict_ignores_padding_and_case `{Engine} (q : Question)
    (raw raw' pre post : jsstring) (Hq : isTextQuestion q) :
  (allWhiteSpace pre -> allWhiteSpace post ->
   evaluateText q (pre ++ raw ++ post) = evaluateText q raw)
  /\ (equalIgnoringCase (trim raw) (trim raw') ->
      (evaluateText q raw).2 = (evaluateText q raw').2)
  /\ (lowersLatin1 -> isLatin1 (trim raw) -> isLatin1 (trim raw') ->
      sameLetters (trim raw) (trim raw') ->
      (evaluateText q raw).2 = (evaluateText q raw').2).
Proof.
  assert (E : forall r,
             evaluateText q r
             = (Str (trim r),
                match correctAnswer q with
                | Arr l =>
                    existsb
                      (fun a => str_eqb (toLowerCase (trim r)) (toLowerCase a))
                      l
                | Str c => str_eqb (toLowerCase (trim r)) (toLowerCase c)
                end)).
  { intros r. unfold evaluateText, QuestionComponent.evaluate.
    destruct Hq as [-> | ->]; reflexivity. }
  assert (F : equalIgnoringCase (trim raw) (trim raw') ->
              (evaluateText q raw).2 = (evaluateText q raw').2).
  { unfold equalIgnoringCase. intros H0. rewrite !E. simpl. now rewrite H0. }
  split; [| split].
  - intros Hpre Hpost. rewrite !E. now rewrite trim_pad.
  - exact F.
  - intros L Ha Hb S. apply F. now apply latin1_equalIgnoringCase.
Qed.

Lemma text_verdict_ignores_padding_and_case_witness :
  (@evaluateText latinEngine sampleBlank (js " eS  ")).2
  = (@evaluateText latinEngine sampleBlank (js "Es")).2.
Proof.
  destruct (@text_verdict_ignores_padding_and_case latinEngine sampleBlank
              (js " eS  ") (js "Es") [] [] (or_intror eq_refl))
    as (_ & H & _).
  apply H. reflexivity.
Defined.

(** X10. An enabled click on Submit records exactly the evaluated answer
    under the question's id and flips the component to its submitted
    state, in which a further click on Submit does nothing; after Next the
    inputs are empty, so Submit is disabled for whatever question comes.
    With unique ids the flattened list then differs from the one before
    at that question only. *)
Theorem submit_records_once `{Engine} (q : Question)
    (cs : QuestionComponent.state)
    (st : Storage) (answer : StrOrArr) (correct : bool)
    (Hclick : QuestionComponent.clickSubmit q cs = Some (answer, correct)) :
  QuestionComponent.onClickSubmit q cs st
  = (QuestionComponent.mkState (QuestionComponent.selectedOption cs)
       (QuestionComponent.textAnswer cs) true correct,
     updateQuestionAnswer (q_id q) answer correct st)
  /\ (forall st',
      QuestionComponent.onClickSubmit q
        (QuestionComponent.onClickSubmit q cs st).1 st'
      = ((QuestionComponent.onClickSubmit q cs st).1, st'))
  /\ (forall q',
      QuestionComponent.submitDisabled q'
        (QuestionComponent.handleNext
           (QuestionComponent.onClickSubmit q cs st).1) = true)
  /\ (forall l1 q0 l2,
      getAllQuestions st = l1 ++ q0 :: l2 ->
      NoDup (List.map q_id (getAllQuestions st)) ->
      q_id q0 = q_id q ->
      getAllQuestions (QuestionComponent.onClickSubmit q cs st).2
      = l1 ++ withAnswer answer correct q0 :: l2).
Proof.
  assert (E : QuestionComponent.onClickSubmit q cs st
              = (QuestionComponent.mkState
                   (QuestionComponent.selectedOption cs)
                   (QuestionComponent.textAnswer cs) true correct,
                 updateQuestionAnswer (q_id q) answer correct st)).
  { unfold QuestionComponent.onClickSubmit. rewrite Hclick.
    unfold QuestionComponent.handleSubmit.
    unfold QuestionComponent.clickSubmit in Hclick.
    destruct (QuestionComponent.hasSubmitted cs); [discriminate |].
    destruct (QuestionComponent.submitDisabled q cs); [discriminate |].
    injection Hclick as ->. reflexivity. }
  rewrite E. simpl. split; [reflexivity |]. split; [| split].
  - intros st'. reflexivity.
  - intros q'. unfold QuestionComponent.submitDisabled. simpl.
    now destruct (q_type q').
  - intros l1 q0 l2 Hl Hn Hq. rewrite getAllQuestions_update.
    rewrite Hl in *. now apply map_answerIf_unique.
Qed.

Lemma submit_records_once_witness :
  @QuestionComponent.onClickSubmit latinEngine sampleBlank
    (QuestionComponent.mkState [] (js " es ") false false) sampleStore
  = (QuestionComponent.mkState [] (js " es ") true true,
     updateQuestionAnswer (js "q6") (Str (js "es")) true sampleStore).
Proof.
  destruct (@submit_records_once latinEngine sampleBlank
              (QuestionComponent.mkState [] (js " es ") false false)
              sampleStore (Str (js "es")) true eq_refl) as (H & _).
  exact H.
Defined.

(** ** Navigation *)

Lemma handleNextQuestion_advance (ps : WorksheetPage.state) (st : Storage) :
  WorksheetPage.currentIndex ps + 1 < length (WorksheetPage.allQuestions ps) ->
  WorksheetPage.handleNextQuestion ps st
  = (WorksheetPage.mkState (WorksheetPage.currentIndex ps + 1)
       (WorksheetPage.allQuestions ps) (getCompletedQuestionsCount st)
       (WorksheetPage.totalCount ps) (WorksheetPage.worksheet ps),
     saveCurrentQuestionIndex (WorksheetPage.currentIndex ps + 1) st,
     WorksheetPage.StayOnWorksheet).
Proof.
  intros H. unfold WorksheetPage.handleNextQuestion.
  destruct (_ <? _)%Z eqn:E; [reflexivity |].
  apply Z.ltb_ge in E. lia.
Qed.

Lemma handleNextQuestion_last (ps : WorksheetPage.state) (st : Storage) :
  length (WorksheetPage.allQuestions ps) <= WorksheetPage.currentIndex ps + 1 ->
  WorksheetPage.handleNextQuestion ps st
  = (WorksheetPage.mkState (WorksheetPage.currentIndex ps)
       (WorksheetPage.allQuestions ps) (getCompletedQuestionsCount st)
       (WorksheetPage.totalCount ps) (WorksheetPage.worksheet ps),
     markAsCompleted true st, WorksheetPage.ToResults).
Proof.
  intros H. unfold WorksheetPage.handleNextQuestion.
  destruct (_ <? _)%Z eqn:E; [| reflexivity].
  apply Z.ltb_lt in E. lia.
Qed.

Lemma nextClicks_stay (ps : WorksheetPage.state) (st : Storage) (k : nat) :
  WorksheetPage.currentIndex ps + k < length (WorksheetPage.allQuestions ps) ->
  (WorksheetPage.nextClicks k ps st).2 = WorksheetPage.StayOnWorksheet
  /\ WorksheetPage.currentIndex (WorksheetPage.nextClicks k ps st).1.1
     = WorksheetPage.currentIndex ps + k
  /\ WorksheetPage.allQuestions (WorksheetPage.nextClicks k ps st).1.1
     = WorksheetPage.allQuestions ps
  /\ (0 < k ->
      getCurrentQuestionIndex (WorksheetPage.nextClicks k ps st).1.2
      = WorksheetPage.currentIndex ps + k)
  /\ isCompleted (WorksheetPage.nextClicks k ps st).1.2 = isCompleted st
  /\ getWorksheet (WorksheetPage.nextClicks k ps st).1.2 = getWorksheet st.
Proof.
  induction k as [| k IH]; intros H.
  - simpl. rewrite Nat.add_0_r. repeat split. lia.
  - destruct IH as (R & I & Q & _ & C & W); [lia |].
    simpl. destruct (WorksheetPage.nextClicks k ps st) as [[ps1 st1] r].
    simpl in *. subst r.
    rewrite handleNextQuestion_advance by (rewrite I, Q; lia). simpl.
    destruct (slots_read_back st1 WorksheetUpload.createSampleWorksheet
                (WorksheetPage.currentIndex ps1 + 1) someStudent true)
      as (_ & (E1 & E2 & _ & E4) & _).
    rewrite E1, E2, E4, I.
    repeat match goal with |- _ /\ _ => split end; auto; lia.
Qed.

Lemma nextClicks_results (ps : WorksheetPage.state) (st : Storage) (k : nat) :
  WorksheetPage.currentIndex ps < length (WorksheetPage.allQuestions ps) ->
  length (WorksheetPage.allQuestions ps) <= WorksheetPage.currentIndex ps + k ->
  (WorksheetPage.nextClicks k ps st).2 = WorksheetPage.ToResults
  /\ isCompleted (WorksheetPage.nextClicks k ps st).1.2 = true
  /\ getWorksheet (WorksheetPage.nextClicks k ps st).1.2 = getWorksheet st.
Proof.
  intros Hi. induction k as [| k IH]; intros H; [lia |].
  destruct (decide (length (WorksheetPage.allQuestions ps)
                    <= WorksheetPage.currentIndex ps + k)) as [L | L].
  - destruct (IH L) as (R & C & W). simpl.
    destruct (WorksheetPage.nextClicks k ps st) as [[ps1 st1] r].
    simpl in *. subst r. auto.
  - destruct (nextClicks_stay ps st k) as (R & I & Q & _ & _ & W); [lia |].
    simpl. destruct (WorksheetPage.nextClicks k ps st) as [[ps1 st1] r].
    simpl in *. subst r.
    rewrite handleNextQuestion_last by (rewrite I, Q; lia). simpl.
    destruct (slots_read_back st1 WorksheetUpload.createSampleWorksheet
                0 someStudent true) as (_ & _ & _ & (E1 & E2 & _)).
    rewrite E1, E2. auto.
Qed.

(** X11. Next Question walks forward one question at a time and never
    back: from question [i] of [n], [k] clicks with [i + k < n] leave the
    page on question [i + k], which exists, with that index stored and
    the completed flag untouched; the click on the last question, and no
    earlier one, marks the session completed and leaves for the results.
    The stored worksheet is never changed by it. *)
Theorem next_walks_to_results (ps : WorksheetPage.state) (st : Storage)
    (Hi : WorksheetPage.currentIndex ps
          < length (WorksheetPage.allQuestions ps)) :
  (forall k,
     WorksheetPage.currentIndex ps + k < length (WorksheetPage.allQuestions ps) ->
     (WorksheetPage.nextClicks k ps st).2 = WorksheetPage.StayOnWorksheet
     /\ WorksheetPage.currentIndex (WorksheetPage.nextClicks k ps st).1.1
        = WorksheetPage.currentIndex ps + k
     /\ is_Some
          (WorksheetPage.allQuestions (WorksheetPage.nextClicks k ps st).1.1
             !! WorksheetPage.currentIndex
                  (WorksheetPage.nextClicks k ps st).1.1)
     /\ (0 < k ->
         getCurrentQuestionIndex (WorksheetPage.nextClicks k ps st).1.2
         = WorksheetPage.currentIndex ps + k)
     /\ isCompleted (WorksheetPage.nextClicks k ps st).1.2 = isCompleted st
     /\ getWorksheet (WorksheetPage.nextClicks k ps st).1.2 = getWorksheet st)
  /\ (forall k,
       length (WorksheetPage.allQuestions ps)
       <= WorksheetPage.currentIndex ps + k ->
       (WorksheetPage.nextClicks k ps st).2 = WorksheetPage.ToResults
       /\ isCompleted (WorksheetPage.nextClicks k ps st).1.2 = true
       /\ getWorksheet (WorksheetPage.nextClicks k ps st).1.2
          = getWorksheet st).
Proof.
  split.
  - intros k Hk.
    destruct (nextClicks_stay ps st k Hk) as (R & I & Q & S & C & W).
    repeat match goal with |- _ /\ _ => split end; try assumption.
    rewrite I, Q. apply lookup_lt_is_Some_2. exact Hk.
  - intros k Hk. now apply nextClicks_results.
Qed.

Lemma next_walks_to_results_witness :
  (WorksheetPage.nextClicks 10
     (WorksheetPage.mount
        (saveWorksheet WorksheetUpload.createSampleWorksheet ∅))
     (saveWorksheet WorksheetUpload.createSampleWorksheet ∅)).2
  = WorksheetPage.ToResults.
Proof.
  destruct (next_walks_to_results
              (WorksheetPage.mount
                 (saveWorksheet WorksheetUpload.createSampleWorksheet ∅))
              (saveWorksheet WorksheetUpload.createSampleWorksheet ∅))
    as (_ & H).
  - vm_compute. lia.
  - apply (H 10). vm_compute. lia.
Defined.



(** ** Upload, student form and results *)

Lemma getStudentInfo_setItem (k : string) (v : item) (st : Storage) :
  k <> STUDENT_INFO_KEY -> getStudentInfo (setItem k v st) = getStudentInfo st.
Proof.
  intros H. unfold getStudentInfo, getItem, setItem.
  now rewrite lookup_insert_ne.
Qed.

Lemma quizStep_keeps_student `{Engine} (st st' : Storage) :
  quizStep st st' -> getStudentInfo st' = getStudentInfo st.
Proof.
  intros [q cs s | ps s | ps s].
  - unfold QuestionComponent.onClickSubmit.
    destruct (QuestionComponent.clickSubmit q cs); [| reflexivity].
    unfold QuestionComponent.handleSubmit.
    destruct (QuestionComponent.evaluate q cs) as [a c]. simpl.
    rewrite updateQuestionAnswer_eq.
    destruct (getWorksheet s) as [w |]; [| reflexivity].
    destruct (hasQuestion (q_id q) (sections w)); [| reflexivity].
    now apply getStudentInfo_setItem.
  - unfold WorksheetPage.handleNextQuestion.
    destruct (_ <? _)%Z; simpl; now apply getStudentInfo_setItem.
  - simpl. now apply getStudentInfo_setItem.
Qed.

Lemma quizSteps_keep_student `{Engine} (st st' : Storage) :
  rtc quizStep st st' -> getStudentInfo st' = getStudentInfo st.
Proof.
  induction 1 as [| x y z S _ IH]; [reflexivity |].
  rewrite IH. now apply quizStep_keeps_student.
Qed.

Lemma scoreEffect_without_student (st : Storage) :
  getStudentInfo st = None ->
  Results.scoreEffect st = Results.ToWorksheet
  \/ Results.scoreEffect st = Results.ToHome.
Proof.
  intros H. unfold Results.scoreEffect. rewrite H.
  destruct (isCompleted st); simpl; [right | now left].
  now destruct (getWorksheet st).
Qed.

(** X13. A successful upload stores the returned worksheet on a cleared
    session: the index reads 0, nothing is completed, and the student
    info saved before is gone.  Answering, moving on and finishing do not
    bring it back, so after them the results page never shows a score: it
    sends the user away.  The demo worksheet is loaded the same way. *)
Theorem upload_discards_student_info `{Engine} (st : Storage)
    (f : WorksheetUpload.File) (r : WorksheetUpload.result)
    (Hok : WorksheetUpload.isFailure r = false) :
  (exists w,
     WorksheetUpload.r_worksheet r = Some w
     /\ WorksheetUpload.handleSubmit (Some f) (WorksheetUpload.Resolved r) st
        = saveWorksheet w (clearStorage st)
     /\ getWorksheet
          (WorksheetUpload.handleSubmit (Some f) (WorksheetUpload.Resolved r)
             st) = Some w)
  /\ getCurrentQuestionIndex
       (WorksheetUpload.handleSubmit (Some f) (WorksheetUpload.Resolved r) st)
     = 0
  /\ isCompleted
       (WorksheetUpload.handleSubmit (Some f) (WorksheetUpload.Resolved r) st)
     = false
  /\ getStudentInfo
       (WorksheetUpload.handleSubmit (Some f) (WorksheetUpload.Resolved r) st)
     = None
  /\ getStudentInfo (WorksheetUpload.handleDemoClick st) = None
  /\ (forall st',
        rtc quizStep
          (WorksheetUpload.handleSubmit (Some f) (WorksheetUpload.Resolved r)
             st) st'
        \/ rtc quizStep (WorksheetUpload.handleDemoClick st) st' ->
        getStudentInfo st' = None
        /\ (Results.scoreEffect st' = Results.ToWorksheet
            \/ Results.scoreEffect st' = Results.ToHome)).
Proof.
  assert (E : exists w,
             WorksheetUpload.r_worksheet r = Some w
             /\ WorksheetUpload.handleSubmit (Some f)
                  (WorksheetUpload.Resolved r) st
                = saveWorksheet w (clearStorage st)).
  { unfold WorksheetUpload.handleSubmit; simpl. rewrite Hok.
    unfold WorksheetUpload.isFailure in Hok.
    apply orb_false_iff in Hok as [_ Hw].
    destruct (WorksheetUpload.r_worksheet r) as [w |]; [| discriminate].
    now exists w. }
  destruct E as (w & Hw & E). rewrite E.
  destruct (slots_read_back (clearStorage st) w 0 someStudent true)
    as ((G1 & G2 & G3 & G4) & _).
  destruct (clearStorage_getters st) as (_ & C2 & C3 & C4).
  assert (D : getStudentInfo (WorksheetUpload.handleDemoClick st) = None).
  { unfold WorksheetUpload.handleDemoClick.
    destruct (slots_read_back (clearStorage st)
                WorksheetUpload.createSampleWorksheet 0 someStudent true)
      as ((_ & _ & -> & _) & _).
    exact C3. }
  split; [exists w; now rewrite G1 |].
  split; [now rewrite G2 |]. split; [now rewrite G4 |].
  split; [now rewrite G3 |]. split; [exact D |].
  intros st' Hq.
  assert (S : getStudentInfo st' = None).
  { destruct Hq as [Hq | Hq]; rewrite (quizSteps_keep_student _ _ Hq);
      [now rewrite G3 | exact D]. }
  split; [exact S | now apply scoreEffect_without_student].
Qed.

Lemma upload_discards_student_info_witness :
  getStudentInfo
    (WorksheetUpload.handleSubmit (Some someFile)
       (WorksheetUpload.Resolved
          (WorksheetUpload.mkResult
             (Some WorksheetUpload.createSampleWorksheet) None))
       sampleStore) = None.
Proof.
  destruct (@upload_discards_student_info latinEngine sampleStore someFile
              (WorksheetUpload.mkResult
                 (Some WorksheetUpload.createSampleWorksheet) None) eq_refl)
    as (_ & _ & _ & H & _).
  exact H.
Defined.

Lemma trim_nil_iff (s : jsstring) : trim s = [] <-> allWhiteSpace s.
Proof.
  split.
  - intros E. destruct (trim_spec s) as (pre & post & -> & Hpre & Hpost & _).
    rewrite E. simpl. now apply Forall_app.
  - intros H. unfold trim. now rewrite trimStart_all_ws.
Qed.

(** X14. The student form refuses a name that is empty or white space
    only and then leaves the store as it was; any other name is stored
    trimmed, so the stored name is never empty and neither starts nor ends
    with white space, and the worksheet, the index and the completed flag
    are not affected. *)
Theorem student_form_stores_trimmed_name (nm ts : jsstring) (st : Storage) :
  (allWhiteSpace nm -> StudentForm.handleSubmit nm ts st = st)
  /\ (~ allWhiteSpace nm ->
      getStudentInfo (StudentForm.handleSubmit nm ts st)
      = Some (mkStudentInfo (trim nm) ts)
      /\ trim nm <> []
      /\ (forall c, head (trim nm) = Some c -> isWhiteSpace c = false)
      /\ (forall c, last (trim nm) = Some c -> isWhiteSpace c = false)
      /\ getWorksheet (StudentForm.handleSubmit nm ts st) = getWorksheet st
      /\ getCurrentQuestionIndex (StudentForm.handleSubmit nm ts st)
         = getCurrentQuestionIndex st
      /\ isCompleted (StudentForm.handleSubmit nm ts st) = isCompleted st).
Proof.
  unfold StudentForm.handleSubmit. split.
  - intros H. apply trim_nil_iff in H. now rewrite H.
  - intros H. assert (N : trim nm <> []) by (now rewrite trim_nil_iff).
    apply truthy_true in N as T. rewrite T.
    destruct (trim_spec nm) as (pre & post & _ & _ & _ & Hh & Hl).
    destruct (slots_read_back st emptyWorksheet 0
                (mkStudentInfo (trim nm) ts) true)
      as (_ & _ & (E1 & E2 & E3 & E4) & _).
    repeat match goal with |- _ /\ _ => split end; assumption.
Qed.

Lemma student_form_stores_trimmed_name_witness :
  getStudentInfo (StudentForm.handleSubmit (js " Ana ") (js "now") ∅)
  = Some (mkStudentInfo (trim (js " Ana ")) (js "now")).
Proof.
  destruct (student_form_stores_trimmed_name (js " Ana ") (js "now") ∅)
    as (_ & H).
  destruct H as (H & _); [| exact H].
  intros A. apply Forall_cons in A as (_ & A).
  apply Forall_cons in A as (A & _). discriminate A.
Defined.

Lemma report_counts (w : Worksheet) :
  PdfService.totalQuestions w = length (questionsOf w)
  /\ PdfService.correctAnswers w
     = length (List.filter isCorrectTruthy (questionsOf w)).
Proof.
  unfold PdfService.totalQuestions, PdfService.correctAnswers, questionsOf.
  split.
  - now rewrite fold_left_add_flat.
  - rewrite filter_flat_map.
    now rewrite (fold_left_add_flat
                   (fun s => List.filter isCorrectTruthy (questions s))).
Qed.

(** X15. The report and the results page score the stored worksheet
    alike: same number of questions, same number of correct ones, same
    percentage, so the figures the page shows are the ones printed; and
    the percentage is NaN exactly when the worksheet has no question. *)
Theorem report_and_results_agree (st : Storage) (w : Worksheet)
    (info : StudentInfo) (Hw : getWorksheet st = Some w) :
  PdfService.totalQuestions w = getTotalQuestionsCount st
  /\ PdfService.correctAnswers w = getCorrectAnswersCount st
  /\ PdfService.scorePercent w = Results.scorePercent st
  /\ (forall c t p,
        Results.scoreEffect st = Results.Scored c t p ->
        PdfService.score (PdfService.generatePDF w info) = (c, t, p))
  /\ (isNaN (PdfService.scorePercent w) = true <-> questionsOf w = []).
Proof.
  destruct (report_counts w) as (T & C).
  destruct (counts_as_lengths st) as (T' & _ & C').
  assert (Q : getAllQuestions st = questionsOf w).
  { unfold getAllQuestions. now rewrite Hw. }
  rewrite Q in *.
  assert (ET : PdfService.totalQuestions w = getTotalQuestionsCount st)
    by congruence.
  assert (EC : PdfService.correctAnswers w = getCorrectAnswersCount st)
    by congruence.
  assert (EP : PdfService.scorePercent w = Results.scorePercent st).
  { unfold PdfService.scorePercent, Results.scorePercent. now rewrite ET, EC. }
  split; [exact ET |]. split; [exact EC |]. split; [exact EP |]. split.
  - intros c t p. unfold Results.scoreEffect.
    destruct (negb (isCompleted st)); [discriminate |].
    rewrite Hw. destruct (getStudentInfo st); [| discriminate].
    intros [= <- <- <-]. unfold PdfService.generatePDF. simpl.
    now rewrite ET, EC, EP.
  - split.
    + intros N. destruct (questionsOf w) as [| q l] eqn:E; [reflexivity |].
      rewrite scorePercent_positive_total in N; [discriminate |].
      rewrite T. simpl. lia.
    + intros E. rewrite scorePercent_zero_total; [reflexivity |].
      now rewrite T, E.
Qed.

Lemma report_and_results_agree_witness :
  PdfService.scorePercent WorksheetUpload.createSampleWorksheet
  = Results.scorePercent sampleStore.
Proof.
  destruct (report_and_results_agree sampleStore
              WorksheetUpload.createSampleWorksheet someStudent eq_refl)
    as (_ & _ & H & _).
  exact H.
Defined.

Lemma replaceRuns_noWhiteSpace (b : bool) (s : jsstring) :
  noWhiteSpace (replaceRuns b s).
Proof.
  revert b. induction s as [| c s IH]; intros b; simpl; [constructor |].
  destruct (isWhiteSpace c) eqn:E.
  - destruct b; [apply IH |]. constructor; [reflexivity | apply IH].
  - constructor; [exact E | apply IH].
Qed.

Lemma replaceRuns_app (b : bool) (s r : jsstring) (c : N) :
  isWhiteSpace c = false ->
  replaceRuns b (s ++ c :: r) = replaceRuns b s ++ c :: replaceRuns false r.
Proof.
  intros Hc. revert b. induction s as [| d s IH]; intros b; simpl.
  - now rewrite Hc.
  - destruct (isWhiteSpace d); [destruct b |]; now rewrite IH.
Qed.

Lemma replaceRuns_id (s : jsstring) :
  noWhiteSpace s -> replaceRuns false s = s.
Proof.
  induction 1 as [| c s Hc _ IH]; simpl; [reflexivity |].
  now rewrite Hc, IH.
Qed.

Lemma replaceRuns_length (b : bool) (s : jsstring) :
  length (replaceRuns b s) <= length s.
Proof.
  revert b. induction s as [| c s IH]; intros b; simpl; [lia |].
  pose proof (IH true). pose proof (IH false).
  destruct (isWhiteSpace c); [destruct b |]; simpl; lia.
Qed.

(** X16. The name of the downloaded file contains no white space: each
    run of white space in the student's name or in the title has become
    one underscore.  It is the cleaned name, an underscore, the cleaned
    title and ".pdf"; a name and title without white space are kept as
    they are, and the name never gets longer. *)
Theorem download_name_has_no_white_space (info : StudentInfo) (w : Worksheet) :
  noWhiteSpace (Results.downloadName info w)
  /\ Results.downloadName info w
     = replaceWhitespace (name info) ++ js "_"
         ++ replaceWhitespace (w_title w) ++ js ".pdf"
  /\ (noWhiteSpace (name info) -> noWhiteSpace (w_title w) ->
      Results.downloadName info w
      = name info ++ js "_" ++ w_title w ++ js ".pdf")
  /\ length (Results.downloadName info w)
     <= length (name info) + length (w_title w) + 5.
Proof.
  assert (E : Results.downloadName info w
              = replaceWhitespace (name info) ++ js "_"
                  ++ replaceWhitespace (w_title w) ++ js ".pdf").
  { unfold Results.downloadName, replaceWhitespace.
    change (js "_" ++ w_title w ++ js ".pdf")
      with (95%N :: (w_title w ++ 46%N :: js "pdf")).
    rewrite replaceRuns_app by reflexivity.
    now rewrite replaceRuns_app by reflexivity. }
  split; [apply replaceRuns_noWhiteSpace |]. split; [exact E |]. split.
  - intros Hn Ht. rewrite E. unfold replaceWhitespace.
    now rewrite !replaceRuns_id.
  - unfold Results.downloadName, replaceWhitespace.
    etransitivity; [apply replaceRuns_length |].
    rewrite !length_app. simpl. lia.
Qed.

Lemma download_name_has_no_white_space_witness :
  Results.downloadName (mkStudentInfo (js "Ana  Maria") (js "now"))
    WorksheetUpload.createSampleWorksheet
  = js "Ana_Maria_Spanish_Game_Night_Worksheet!.pdf".
Proof.
  destruct (download_name_has_no_white_space
              (mkStudentInfo (js "Ana  Maria") (js "now"))
              WorksheetUpload.createSampleWorksheet) as (_ & H & _).
  rewrite H. reflexivity.
Defined.

(** ** Ingestion *)

Lemma fromCharCode_inj (i j : nat) :
  (N.of_nat i < 65536)%N -> (N.of_nat j < 65536)%N ->
  fromCharCode (97 + N.of_nat i) = fromCharCode (97 + N.of_nat j) -> i = j.
Proof.
  unfold fromCharCode. intros Hi Hj [= H].
  assert (Z.of_N ((97 + N.of_nat i) mod 65536)
          = Z.of_N ((97 + N.of_nat j) mod 65536)) as H' by now rewrite H.
  rewrite !N2Z.inj_mod, !N2Z.inj_add, !nat_N_Z in H'.
  change (Z.of_N 97) with 97%Z in H'. change (Z.of_N 65536) with 65536%Z in H'.
  Z.to_euclidean_division_equations. lia.
Qed.

(** X17. When no option of a question comes with an id of its own, the
    ids filled in are pairwise distinct, for any list of up to 65536
    options.  When some options bring ids the filled-in ones can collide
    with them: an option without id followed by one with id "a" both end
    up as "a". *)
Theorem backfilled_ids_distinct (ps : list ProcessWorksheet.ParsedOption)
    (Hnone : Forall (fun p => ProcessWorksheet.po_id p = None
                              \/ ProcessWorksheet.po_id p = Some []) ps)
    (Hlen : (N.of_nat (length ps) <= 65536)%N) :
  NoDup (opt_id <$> imap ProcessWorksheet.processOption ps)
  /\ (opt_id <$> imap ProcessWorksheet.processOption
                   [ProcessWorksheet.mkParsedOption None (js "x");
                    ProcessWorksheet.mkParsedOption (Some (js "a")) (js "y")])
     = [js "a"; js "a"].
Proof.
  split; [| reflexivity].
  assert (L : forall i x,
             (opt_id <$> imap ProcessWorksheet.processOption ps) !! i = Some x ->
             i < length ps /\ x = fromCharCode (97 + N.of_nat i)).
  { intros i x. rewrite list_lookup_fmap, list_lookup_imap.
    destruct (ps !! i) as [p |] eqn:E; [| discriminate].
    simpl. intros [= <-]. split; [now apply lookup_lt_Some in E |].
    unfold ProcessWorksheet.processOption. simpl.
    pose proof (proj1 (List.Forall_forall _ _) Hnone p) as Hp.
    destruct Hp as [-> | ->]; [| reflexivity | reflexivity].
    apply list_elem_of_In. eapply list_elem_of_lookup_2. exact E. }
  apply NoDup_alt. intros i j x Hi Hj.
  apply L in Hi as (Li & ->). apply L in Hj as (Lj & Ej).
  apply fromCharCode_inj; [lia | lia | exact Ej].
Qed.

Lemma backfilled_ids_distinct_witness :
  NoDup (opt_id <$> imap ProcessWorksheet.processOption
                      [ProcessWorksheet.mkParsedOption None (js "green");
                       ProcessWorksheet.mkParsedOption (Some []) (js "red")]).
Proof.
  assert (Hn : Forall (fun p => ProcessWorksheet.po_id p = None
                               \/ ProcessWorksheet.po_id p = Some [])
                 [ProcessWorksheet.mkParsedOption None (js "green");
                  ProcessWorksheet.mkParsedOption (Some []) (js "red")]).
  { constructor; [now left |]. constructor; [now right | constructor]. }
  destruct (backfilled_ids_distinct _ Hn) as (H & _); [simpl; lia |].
  exact H.
Defined.

Lemma drawnIds_ingest (uuidv4 : nat -> jsstring)
    (p : ProcessWorksheet.ParsedWorksheet) (n : nat) :
  exists len,
    drawnIds (ingest uuidv4 p n) = List.map uuidv4 (seq n len)
    /\ (ProcessWorksheet.processedWorksheet uuidv4 p n).2 = n + len.
Proof.
  destruct (processSections_spec uuidv4 (ProcessWorksheet.pw_sections p) (S n))
    as (L & I & _).
  exists (S ((ProcessWorksheet.mapM (ProcessWorksheet.processSection uuidv4)
                (ProcessWorksheet.pw_sections p) (S n)).2 - S n)).
  split.
  - rewrite ingest_eq. unfold drawnIds; simpl. now rewrite I.
  - unfold ProcessWorksheet.processedWorksheet, ProcessWorksheet.bind,
      ProcessWorksheet.fresh, ProcessWorksheet.ret.
    destruct (ProcessWorksheet.mapM _ _ (S n)) as [ss m]. simpl in *. lia.
Qed.

(** X18. Normalising two replies one after the other, the second drawing
    its identifiers where the first stopped, gives two worksheets that
    share no id: with an identifier source that never repeats, all ids of
    both worksheets together are pairwise distinct.  The number of
    identifiers a reply consumes is the number of ids it was given. *)
Theorem successive_ingests_share_no_id (uuidv4 : nat -> jsstring)
    (Hinj : forall j k, uuidv4 j = uuidv4 k -> j = k)
    (p1 p2 : ProcessWorksheet.ParsedWorksheet) (n : nat) :
  (ProcessWorksheet.processedWorksheet uuidv4 p1 n).2
  = n + length (drawnIds (ingest uuidv4 p1 n))
  /\ NoDup (drawnIds (ingest uuidv4 p1 n)
            ++ drawnIds
                 (ingest uuidv4 p2
                    (ProcessWorksheet.processedWorksheet uuidv4 p1 n).2)).
Proof.
  destruct (drawnIds_ingest uuidv4 p1 n) as (l1 & E1 & C1).
  destruct (drawnIds_ingest uuidv4 p2
              (ProcessWorksheet.processedWorksheet uuidv4 p1 n).2)
    as (l2 & E2 & _).
  rewrite E1, E2, C1. split.
  - now rewrite length_map, length_seq.
  - rewrite <- List.map_app, <- seq_app.
    change (NoDup (uuidv4 <$> seq n (l1 + l2))).
    apply NoDup_fmap_2_strong; [| apply NoDup_seq].
    intros j k _ _. apply Hinj.
Qed.

Lemma successive_ingests_share_no_id_witness :
  NoDup (drawnIds (ingest sampleUuid sampleParsed 0)
         ++ drawnIds
              (ingest sampleUuid sampleParsed
                 (ProcessWorksheet.processedWorksheet sampleUuid
                    sampleParsed 0).2)).
Proof.
  destruct (successive_ingests_share_no_id sampleUuid sampleUuid_inj
              sampleParsed sampleParsed 0) as (_ & H).
  exact H.
Defined.

Lemma sameSections_length (ss : list WorksheetSection)
    (ps : list ProcessWorksheet.ParsedSection) :
  Forall2 sameSection ss ps ->
  length (flat_map questions ss)
  = length (flat_map ProcessWorksheet.ps_questions ps).
Proof.
  induction 1 as [| s p ss ps (_ & _ & Q) _ IH]; simpl; [reflexivity |].
  rewrite !List.length_app, IH. f_equal. now apply Forall2_length in Q.
Qed.

Lemma filter_none {A} (p : A -> bool) (l : list A) :
  Forall (fun x => p x = false) l -> List.filter p l = [].
Proof.
  induction 1 as [| x l H _ IH]; simpl; [reflexivity |]. now rewrite H.
Qed.

Lemma filter_length_Forall2 {A B} (R : A -> B -> Prop) (p : A -> bool)
    (q : B -> bool) (l : list A) (k : list B) :
  (forall x y, R x y -> p x = q y) -> Forall2 R l k ->
  length (List.filter p l) = length (List.filter q k).
Proof.
  intros E. induction 1 as [| x y l k Hxy _ IH]; simpl; [reflexivity |].
  rewrite (E x y Hxy). destruct (q y); simpl; now rewrite IH.
Qed.

Lemma sameQuestion_answered (q : Question)
    (pq : ProcessWorksheet.ParsedQuestion) :
  sameQuestion q pq -> answered q = replyAnswered pq.
Proof.
  intros (_ & _ & _ & _ & U & _). unfold answered, replyAnswered.
  now rewrite U.
Qed.

Lemma sameQuestion_correct (q : Question)
    (pq : ProcessWorksheet.ParsedQuestion) :
  sameQuestion q pq -> isCorrectTruthy q = replyCorrect pq.
Proof.
  intros (_ & _ & _ & _ & _ & C). unfold isCorrectTruthy, replyCorrect.
  now rewrite C.
Qed.

(** X19. A freshly uploaded worksheet lists as many questions as the
    reply had, whatever the session held before, and counts as completed
    and as correct the questions that the reply itself gave an answer and
    a true verdict: normalisation keeps both fields.  When the reply
    gives neither on any question, as the requested format has it,
    nothing is completed or correct and the worksheet page opened on it
    does not offer Finish. *)
Theorem fresh_upload_counts_follow_reply (uuidv4 : nat -> jsstring)
    (p : ProcessWorksheet.ParsedWorksheet) (n : nat)
    (f : WorksheetUpload.File) (st : Storage) :
  getTotalQuestionsCount
    (WorksheetUpload.handleSubmit (Some f)
       (WorksheetUpload.Resolved
          (WorksheetUpload.mkResult (Some (ingest uuidv4 p n)) None)) st)
  = length (replyQuestions p)
  /\ getCompletedQuestionsCount
       (WorksheetUpload.handleSubmit (Some f)
          (WorksheetUpload.Resolved
             (WorksheetUpload.mkResult (Some (ingest uuidv4 p n)) None)) st)
     = length (List.filter replyAnswered (replyQuestions p))
  /\ getCorrectAnswersCount
       (WorksheetUpload.handleSubmit (Some f)
          (WorksheetUpload.Resolved
             (WorksheetUpload.mkResult (Some (ingest uuidv4 p n)) None)) st)
     = length (List.filter replyCorrect (replyQuestions p))
  /\ (Forall (fun q => ProcessWorksheet.pq_userAnswer q = None
                       /\ ProcessWorksheet.pq_isCorrect q = None)
        (replyQuestions p) ->
      getCompletedQuestionsCount
        (WorksheetUpload.handleSubmit (Some f)
           (WorksheetUpload.Resolved
              (WorksheetUpload.mkResult (Some (ingest uuidv4 p n)) None)) st)
      = 0
      /\ getCorrectAnswersCount
           (WorksheetUpload.handleSubmit (Some f)
              (WorksheetUpload.Resolved
                 (WorksheetUpload.mkResult (Some (ingest uuidv4 p n)) None))
              st)
         = 0
      /\ WorksheetPage.finishAvailable
           (WorksheetPage.render
              (WorksheetPage.mount
                 (WorksheetUpload.handleSubmit (Some f)
                    (WorksheetUpload.Resolved
                       (WorksheetUpload.mkResult (Some (ingest uuidv4 p n))
                          None))
                    st)))
         = false).
Proof.
  set (st' := WorksheetUpload.handleSubmit _ _ st).
  assert (W : getWorksheet st' = Some (ingest uuidv4 p n))
    by apply upload_stores_worksheet.
  assert (Q : getAllQuestions st' = questionsOf (ingest uuidv4 p n)).
  { unfold getAllQuestions. now rewrite W. }
  pose proof (ingest_questions uuidv4 p n) as S.
  destruct (counts_as_lengths st') as (T & C & R).
  assert (T' : getTotalQuestionsCount st' = length (replyQuestions p)).
  { rewrite T, Q. now apply Forall2_length in S. }
  assert (C' : getCompletedQuestionsCount st'
               = length (List.filter replyAnswered (replyQuestions p))).
  { rewrite C, Q.
    exact (filter_length_Forall2 _ _ _ _ _ sameQuestion_answered S). }
  assert (R' : getCorrectAnswersCount st'
               = length (List.filter replyCorrect (replyQuestions p))).
  { rewrite R, Q.
    exact (filter_length_Forall2 _ _ _ _ _ sameQuestion_correct S). }
  split; [exact T' |]. split; [exact C' |]. split; [exact R' |].
  intros U.
  assert (C0 : getCompletedQuestionsCount st' = 0).
  { rewrite C', filter_none; [reflexivity |].
    eapply List.Forall_impl; [| exact U].
    intros q [Hq _]. unfold replyAnswered. rewrite Hq.
    apply bool_decide_eq_false. intros [x Hx]. discriminate. }
  assert (R0 : getCorrectAnswersCount st' = 0).
  { rewrite R', filter_none; [reflexivity |].
    eapply List.Forall_impl; [| exact U].
    intros q [_ Hq]. unfold replyCorrect. now rewrite Hq. }
  split; [exact C0 |]. split; [exact R0 |].
  rewrite render_mount, C0.
  destruct (getAllQuestions st') as [| q l] eqn:E; [reflexivity |].
  assert (F : WorksheetPage.showFinish 0 (getTotalQuestionsCount st') = false).
  { destruct (WorksheetPage.showFinish 0 (getTotalQuestionsCount st')) eqn:F;
      [| reflexivity].
    apply showFinish_true in F. rewrite T in F. simpl in F. lia. }
  now rewrite F.
Qed.

Lemma fresh_upload_counts_follow_reply_witness :
  getCompletedQuestionsCount
    (WorksheetUpload.handleSubmit (Some someFile)
       (WorksheetUpload.Resolved
          (WorksheetUpload.mkResult
             (Some (ingest sampleUuid sampleParsed 0)) None)) sampleStore)
  = 0.
Proof.
  assert (U : Forall (fun q => ProcessWorksheet.pq_userAnswer q = None
                               /\ ProcessWorksheet.pq_isCorrect q = None)
                (replyQuestions sampleParsed))
    by (vm_compute; repeat constructor).
  destruct (fresh_upload_counts_follow_reply sampleUuid sampleParsed 0
              someFile sampleStore) as (_ & _ & _ & H).
  destruct (H U) as (H0 & _). exact H0.
Defined.

(** ** Report body and score header *)

Lemma filter_imap_length {A B} (p : B -> bool) (q : A -> bool)
    (f : nat -> A -> B) (l : list A) :
  (forall i x, p (f i x) = q x) ->
  length (List.filter p (imap f l)) = length (List.filter q l).
Proof.
  revert f. induction l as [| x l IH]; intros f H; [reflexivity |].
  rewrite imap_cons. simpl. rewrite H.
  destruct (q x); simpl; rewrite (IH (f ∘ S)); auto; intros i y; apply H.
Qed.

Lemma filter_all {A} (l : list A) : List.filter (fun _ => true) l = l.
Proof.
  induction l as [| x l IH]; simpl; [reflexivity |]. now rewrite IH.
Qed.

Lemma renderQuestion_green (i : nat) (q : Question) :
  isGreen (PdfService.renderQuestion i q) = isCorrectTruthy q.
Proof.
  unfold PdfService.renderQuestion. now destruct (isCorrectTruthy q).
Qed.

Lemma renderQuestion_correction (i : nat) (q : Question) :
  hasCorrection (PdfService.renderQuestion i q) = negb (isCorrectTruthy q).
Proof.
  unfold PdfService.renderQuestion. now destruct (isCorrectTruthy q).
Qed.

Lemma allElements_counts (p : PdfService.questionElement -> bool)
    (q : Question -> bool) (w : Worksheet) (info : StudentInfo) :
  (forall i x, p (PdfService.renderQuestion i x) = q x) ->
  length (List.filter p (allElements (PdfService.generatePDF w info)))
  = length (List.filter q (questionsOf w)).
Proof.
  intros H. unfold allElements, PdfService.generatePDF, questionsOf. simpl.
  induction (sections w) as [| s ss IH]; simpl; [reflexivity |].
  rewrite !List.filter_app, !List.length_app, IH. f_equal.
  now apply filter_imap_length.
Qed.

(** X20. The body of the report matches its score line: it has one
    element per question, as many as the denominator of the score; the
    answers printed in green are as many as the numerator; and every
    other element, and only those, carries a correct-answer paragraph. *)
Theorem report_body_matches_score (w : Worksheet) (info : StudentInfo) :
  length (allElements (PdfService.generatePDF w info))
  = PdfService.totalQuestions w
  /\ length (List.filter isGreen (allElements (PdfService.generatePDF w info)))
     = PdfService.correctAnswers w
  /\ length (List.filter hasCorrection
                (allElements (PdfService.generatePDF w info)))
     = PdfService.totalQuestions w - PdfService.correctAnswers w
  /\ PdfService.score (PdfService.generatePDF w info)
     = (PdfService.correctAnswers w, PdfService.totalQuestions w,
        PdfService.scorePercent w).
Proof.
  destruct (report_counts w) as (T & C0).
  pose proof (allElements_counts (fun _ => true) (fun _ => true) w info
                (fun _ _ => eq_refl)) as A.
  rewrite (filter_all (allElements (PdfService.generatePDF w info))),
    (filter_all (questionsOf w)) in A.
  pose proof (allElements_counts isGreen isCorrectTruthy w info
                renderQuestion_green) as G.
  pose proof (allElements_counts hasCorrection
                (fun q => negb (isCorrectTruthy q)) w info
                renderQuestion_correction) as C.
  split; [now rewrite T |]. split; [now rewrite C0 |].
  split; [| reflexivity].
  rewrite C, T, C0. clear.
  induction (questionsOf w) as [| q l IH]; simpl; [reflexivity |].
  pose proof (List.filter_length_le isCorrectTruthy l).
  destruct (isCorrectTruthy q); simpl; lia.
Qed.
